(** * BAR228 BLE session manager: a shallow embedding of [parser.py]

    The development embeds
    [custom_components/bar228_ble/bar228_ble/parser.py] and states the
    properties of the frame decoder ([notification_handler]), of the
    subscription phase ([_get_bar228] under its decorator
    [disconnect_on_missing_services]) and of the public entry point
    ([update_device]).

    Modelling choices.
    - Python objects live in a store indexed by object identity, so that
      the record returned by [update_device] aliases the one the
      notification handler mutates.
    - A coroutine is a computation in a state-and-exception monad.  State
      changes made before an exception is raised persist, as in Python.
    - The BLE transport (bleak) is external: every fallible transport call
      consumes one entry of a script held by the environment, so a
      statement quantified over scripts covers every behaviour of the
      transport.  The calls made on the transport are recorded in order.
    - Notifications are delivered between coroutine steps: [System.step]
      interleaves calls of the handler with calls of [update_device] and
      with moves of the environment.  Inside a call, the handler can run
      while a [start_notify] is awaited: [Loop] gives the coroutines
      with those arrivals, [Parser] the runs in which nothing arrives,
      and a call with arrivals leaves the machine that the call without
      them leaves once the same notifications were handled after it
      ([update_device_during_commutes]).
    - [BLEDevice.name] is [Optional[str]] in bleak, so the advertised
      name and the name of the record are a string or [None].
    - [logger.debug] calls have no effect on the session and are left out.
    - [x / 10] on a Python int is IEEE-754 binary64 division, modelled with
      the primitive floats. *)

From Stdlib Require Import ZArith String List Lia Strings.Byte.
From Stdlib Require Import Floats.PrimFloat Numbers.Cyclic.Int63.Uint63.
From stdpp Require Import base option list gmap strings.

Local Open Scope Z_scope.
Local Open Scope string_scope.
Local Open Scope list_scope.

(** ** Python runtime values *)

Module Py.

(** Values stored in [BAR228Device.sensors]: [None], an int (humidity),
    a float (temperature, pressure) or an aware datetime ([last]),
    kept as the instant read from the clock. *)
Inductive PyVal : Type :=
| VNone
| VInt (z : Z)
| VFloat (f : float)
| VDatetime (t : Z).

(** The exceptions that occur in the module.  All but [CancelledError]
    derive from [Exception]; [BleakCharacteristicMissing] and
    [BleakServiceMissing] are the two subclasses of [BleakError] that
    parser.py declares. *)
Inductive Exn : Type :=
| BleakError
| BleakCharacteristicMissing
| BleakServiceMissing
| StructError
| AttributeError
| NameError
| TypeError
| OtherException
| CancelledError.

(** [isinstance(e, Exception)] *)
Definition is_Exception (e : Exn) : bool :=
  match e with
  | CancelledError => false
  | _ => true
  end.

(** [isinstance(e, (BleakServiceMissing, BleakCharacteristicMissing))] *)
Definition is_missing (e : Exn) : bool :=
  match e with
  | BleakServiceMissing | BleakCharacteristicMissing => true
  | _ => false
  end.

Inductive Result (A : Type) : Type :=
| Ok (a : A)
| Raise (e : Exn).
Arguments Ok {A} a.
Arguments Raise {A} e.

(** An element of a [bytearray] as an int. *)
Definition byte_val (b : Byte.byte) : Z := Z.of_N (Byte.to_N b).

(** [buf[lo:hi]] for literal bounds [0 <= lo <= hi]. *)
Definition slice {A : Type} (lo hi : nat) (buf : list A) : list A :=
  take (hi - lo) (drop lo buf).

(** [struct.unpack("<H", buf)[0]]: exactly two bytes, low byte first. *)
Definition struct_unpack_H_le (buf : list Byte.byte) : Result Z :=
  match buf with
  | [b0; b1] => Ok (Z.lor (byte_val b0) (Z.shiftl (byte_val b1) 8))
  | _ => Raise StructError
  end.

(** [struct.unpack("@B", buf)[0]]: exactly one byte. *)
Definition struct_unpack_B (buf : list Byte.byte) : Result Z :=
  match buf with
  | [b0] => Ok (byte_val b0)
  | _ => Raise StructError
  end.

(** [float(z)] for an int that a 63-bit machine integer holds. *)
Definition float_of_int (z : Z) : float :=
  PrimFloat.of_uint63 (Uint63.of_Z z).

(** [a / b] on two ints (true division). *)
Definition int_truediv (a b : Z) : float :=
  PrimFloat.div (float_of_int a) (float_of_int b).

(** [f"{x}"] for [x] a str or [None]. *)
Definition fstring (x : option string) : string :=
  match x with
  | Some s => s
  | None => "None"
  end.

End Py.
Export Py.

(** ** The object store and the environment *)

Module Store.

(** Object identity. *)
Definition loc : Type := nat.

(** [sender: BleakGATTCharacteristic]; the handler reads [handle] only. *)
Record BleakGATTCharacteristic : Type := {
  handle : Z;
  uuid : string;
}.

(** [ble_device: BLEDevice] as parser.py uses it.  bleak declares [name]
    as [Optional[str]]: it is [None] for a device that advertises no
    name. *)
Record BLEDevice : Type := {
  ble_name : option string;
  ble_address : string;
}.

(** [@dataclasses.dataclass class BAR228Device]; [sensors] is a reference
    to a dict object.  [name] is declared [str] and starts as [""], but
    [update_device] stores [ble_device.name] in it, which may be
    [None]. *)
Record BAR228Device : Type := {
  hw_version : string;
  sw_version : string;
  name : option string;
  identifier : string;
  address : string;
  sensors : loc;
}.

#[global] Instance BAR228Device_inhabited : Inhabited BAR228Device :=
  populate {| hw_version := ""; sw_version := ""; name := Some "";
              identifier := ""; address := ""; sensors := 0%nat |}.

(** The attributes of a [BAR228BluetoothDeviceData] instance ([logger]
    apart).  The four optional attributes hold [None] or a reference. *)
Record Session : Type := {
  is_metric : bool;
  elevation : option Z;
  voltage : float * float;
  _command_data : option (list Byte.byte);
  _bardevice : option loc;
  _bleclient : option loc;
  _event : option loc;
}.

(** What the transport answers to a fallible call. *)
Inductive Outcome : Type :=
| Succeeds
| Fails (e : Exn).

(** Calls made on the transport, as recorded in order. *)
Inductive Call : Type :=
| CEstablish (addr : string)
| CConnect (c : loc)
| CStartNotify (c : loc) (characteristic : string)
| CClearCache (c : loc)
| CDisconnect (c : loc).

Record Machine : Type := {
  self : Session;
  (* store *)
  devices : gmap loc BAR228Device;
  dicts : gmap loc (gmap string PyVal);
  events : gmap loc bool;          (* asyncio.Event: its flag *)
  clients : gmap loc bool;         (* BleakClient: is_connected *)
  next_loc : loc;
  (* environment *)
  clock : Z;                       (* what datetime.now() reads *)
  script : list Outcome;           (* answers of the transport *)
  calls : list Call;               (* transport calls so far *)
}.

Definition with_self (s : Session) (m : Machine) : Machine :=
  {| self := s; devices := devices m; dicts := dicts m; events := events m;
     clients := clients m; next_loc := next_loc m; clock := clock m;
     script := script m; calls := calls m |}.

Definition with_devices (d : gmap loc BAR228Device) (m : Machine) : Machine :=
  {| self := self m; devices := d; dicts := dicts m; events := events m;
     clients := clients m; next_loc := next_loc m; clock := clock m;
     script := script m; calls := calls m |}.

Definition with_dicts (d : gmap loc (gmap string PyVal)) (m : Machine) : Machine :=
  {| self := self m; devices := devices m; dicts := d; events := events m;
     clients := clients m; next_loc := next_loc m; clock := clock m;
     script := script m; calls := calls m |}.

Definition with_events (e : gmap loc bool) (m : Machine) : Machine :=
  {| self := self m; devices := devices m; dicts := dicts m; events := e;
     clients := clients m; next_loc := next_loc m; clock := clock m;
     script := script m; calls := calls m |}.

Definition with_clients (c : gmap loc bool) (m : Machine) : Machine :=
  {| self := self m; devices := devices m; dicts := dicts m; events := events m;
     clients := c; next_loc := next_loc m; clock := clock m;
     script := script m; calls := calls m |}.

Definition with_next_loc (n : loc) (m : Machine) : Machine :=
  {| self := self m; devices := devices m; dicts := dicts m; events := events m;
     clients := clients m; next_loc := n; clock := clock m;
     script := script m; calls := calls m |}.

Definition with_script (s : list Outcome) (m : Machine) : Machine :=
  {| self := self m; devices := devices m; dicts := dicts m; events := events m;
     clients := clients m; next_loc := next_loc m; clock := clock m;
     script := s; calls := calls m |}.

Definition with_calls (c : list Call) (m : Machine) : Machine :=
  {| self := self m; devices := devices m; dicts := dicts m; events := events m;
     clients := clients m; next_loc := next_loc m; clock := clock m;
     script := script m; calls := c |}.

Definition with_clock (t : Z) (m : Machine) : Machine :=
  {| self := self m; devices := devices m; dicts := dicts m; events := events m;
     clients := clients m; next_loc := next_loc m; clock := t;
     script := script m; calls := calls m |}.

Definition set_command_data (v : option (list Byte.byte)) (s : Session) : Session :=
  {| is_metric := is_metric s; elevation := elevation s; voltage := voltage s;
     _command_data := v; _bardevice := _bardevice s;
     _bleclient := _bleclient s; _event := _event s |}.

Definition set_bardevice (v : option loc) (s : Session) : Session :=
  {| is_metric := is_metric s; elevation := elevation s; voltage := voltage s;
     _command_data := _command_data s; _bardevice := v;
     _bleclient := _bleclient s; _event := _event s |}.

Definition set_bleclient (v : option loc) (s : Session) : Session :=
  {| is_metric := is_metric s; elevation := elevation s; voltage := voltage s;
     _command_data := _command_data s; _bardevice := _bardevice s;
     _bleclient := v; _event := _event s |}.

Definition set_event (v : option loc) (s : Session) : Session :=
  {| is_metric := is_metric s; elevation := elevation s; voltage := voltage s;
     _command_data := _command_data s; _bardevice := _bardevice s;
     _bleclient := _bleclient s; _event := v |}.

(** The dict that [sensors] of the device at [l] refers to. *)
Definition sensors_of (m : Machine) (l : loc) : gmap string PyVal :=
  dicts m !!! sensors (devices m !!! l).

(** How many times a call satisfying [p] was made. *)
Definition count_calls (p : Call -> bool) (m : Machine) : nat :=
  length (List.filter p (calls m)).

Definition is_start_notify (c : Call) : bool :=
  match c with CStartNotify _ _ => true | _ => false end.

Definition is_clear_cache (c : Call) : bool :=
  match c with CClearCache _ => true | _ => false end.

Definition is_disconnect (c : Call) : bool :=
  match c with CDisconnect _ => true | _ => false end.

End Store.
Export Store.

(** ** Coroutines as state-and-exception computations *)

Module Run.

(** A computation reads and changes the machine and either returns a
    value or raises; the machine it leaves behind is kept in both cases. *)
Definition M (A : Type) : Type := Machine -> Result A * Machine.

Definition ret {A : Type} (a : A) : M A := fun m => (Ok a, m).

Definition bind {A B : Type} (c : M A) (k : A -> M B) : M B :=
  fun m =>
    match c m with
    | (Ok a, m') => k a m'
    | (Raise e, m') => (Raise e, m')
    end.

Definition raise {A : Type} (e : Exn) : M A := fun m => (Raise e, m).

(** [try: c  except <classes>: h], where [caught] decides the classes. *)
Definition try_except {A : Type} (c : M A) (caught : Exn -> bool)
    (h : Exn -> M A) : M A :=
  fun m =>
    match c m with
    | (Ok a, m') => (Ok a, m')
    | (Raise e, m') => if caught e then h e m' else (Raise e, m')
    end.

Definition gets {A : Type} (f : Machine -> A) : M A := fun m => (Ok (f m), m).

Definition modify (f : Machine -> Machine) : M unit := fun m => (Ok tt, f m).

Definition modify_self (f : Session -> Session) : M unit :=
  modify (fun m => with_self (f (self m)) m).

Definition lift {A : Type} (r : Result A) : M A := fun m => (r, m).

End Run.
Export Run.

Declare Scope py_scope.
Delimit Scope py_scope with py.
Notation "'let!' x ':=' c 'in' k" := (bind c (fun x => k))
  (at level 10, x name, c at level 100, k at level 200) : py_scope.
Notation "'do!' c 'in' k" := (bind c (fun _ => k))
  (at level 10, c at level 100, k at level 200) : py_scope.

(** ** Objects: allocation, attributes, dict items, events *)

Module Obj.
Local Open Scope py_scope.

Definition fresh : M loc :=
  fun m => (Ok (next_loc m), with_next_loc (S (next_loc m)) m).

(** [BAR228Device()]: a new record with the defaults of the dataclass
    and, from [default_factory], a new empty dict. *)
Definition new_BAR228Device : M loc :=
  let! l := fresh in
  let! dl := fresh in
  do! modify (fun m => with_dicts (<[dl := ∅]> (dicts m)) m) in
  do! modify (fun m => with_devices
        (<[l := {| hw_version := ""; sw_version := ""; name := Some "";
                   identifier := ""; address := ""; sensors := dl |}]>
           (devices m)) m) in
  ret l.

(** [obj.<attr>] where [obj] may be [None]. *)
Definition deref (obj : option loc) : M loc :=
  match obj with
  | Some l => ret l
  | None => raise AttributeError
  end.

Definition set_name (l : loc) (v : option string) : M unit :=
  modify (fun m =>
    let d := devices m !!! l in
    with_devices
      (<[l := {| hw_version := hw_version d; sw_version := sw_version d;
                 name := v; identifier := identifier d;
                 address := address d; sensors := sensors d |}]>
         (devices m)) m).

Definition set_address (l : loc) (v : string) : M unit :=
  modify (fun m =>
    let d := devices m !!! l in
    with_devices
      (<[l := {| hw_version := hw_version d; sw_version := sw_version d;
                 name := name d; identifier := identifier d;
                 address := v; sensors := sensors d |}]>
         (devices m)) m).

(** [obj.startswith(prefix)] where [obj] is a str or [None]. *)
Definition startswith (obj : option string) (prefix : string) : M bool :=
  match obj with
  | Some s => ret (String.prefix prefix s)
  | None => raise AttributeError
  end.

(** [obj.sensors] *)
Definition get_sensors (l : loc) : M loc :=
  gets (fun m => sensors (devices m !!! l)).

(** [d[k] = v] on the dict object at [dl]. *)
Definition dict_setitem (dl : loc) (k : string) (v : PyVal) : M unit :=
  modify (fun m => with_dicts (<[dl := <[k := v]> (dicts m !!! dl)]> (dicts m)) m).

(** [self._command_data[lo:hi]] *)
Definition command_data_slice (lo hi : nat) : M (list Byte.byte) :=
  fun m =>
    match _command_data (self m) with
    | Some buf => (Ok (slice lo hi buf), m)
    | None => (Raise TypeError, m)
    end.

(** [datetime.now().astimezone()] *)
Definition datetime_now : M PyVal := gets (fun m => VDatetime (clock m)).

(** [asyncio.Event()] *)
Definition new_Event : M loc :=
  let! e := fresh in
  do! modify (fun m => with_events (<[e := false]> (events m)) m) in
  ret e.

(** [ev.set()] *)
Definition event_set (e : loc) : M unit :=
  modify (fun m => with_events (<[e := true]> (events m)) m).

(** The names bound in the module's global scope: its imports, classes,
    constants and [_LOGGER]. *)
Definition module_globals : list string :=
  [ "annotations"; "asyncio"; "dataclasses"; "struct"; "namedtuple";
    "datetime"; "logging"; "exp"; "Any"; "Callable"; "Tuple"; "TypeVar";
    "cast"; "BleakClient"; "BleakError"; "BLEDevice";
    "BleakGATTCharacteristic"; "establish_connection"; "WrapFuncType";
    "BleakCharacteristicMissing"; "BleakServiceMissing";
    "BAR228_CHARACTERISTIC_UUID_READ";
    "BAR228_CHARACTERISTIC_UUID_WRITE1"; "BAR228_CHARACTERISTIC_UUID_WRITE2";
    "BAR228_CHARACTERISTIC_UUID_WRITE3"; "BAR228_CHARACTERISTIC_UUID_WRITE4";
    "BAR228_CHARACTERISTIC_UUID_WRITE5"; "BAR228_CHARACTERISTIC_UUID_WRITE6";
    "_LOGGER"; "BAR228Device"; "BAR228BluetoothDeviceData" ].

(** Reading a global name: [NameError] when it is unbound. *)
Definition load_global (n : string) : M unit :=
  if existsb (String.eqb n) module_globals then ret tt else raise NameError.

(** [self.<attr>] for an attribute holding a reference or [None];
    [AttributeError] for a name that is not an attribute of the
    instance. *)
Definition self_getattr (attr : string) : M (option loc) :=
  if String.eqb attr "_bardevice" then gets (fun m => _bardevice (self m))
  else if String.eqb attr "_bleclient" then gets (fun m => _bleclient (self m))
  else if String.eqb attr "_event" then gets (fun m => _event (self m))
  else raise AttributeError.

End Obj.
Export Obj.

(** ** The transport: bleak and bleak_retry_connector *)

Module Bleak.
Local Open Scope py_scope.

Definition record_call (c : Call) : M unit :=
  modify (fun m => with_calls (calls m ++ [c]) m).

(** The transport's answer to the next fallible call; it succeeds once
    the script is exhausted. *)
Definition next_outcome : M Outcome :=
  fun m =>
    match script m with
    | [] => (Ok Succeeds, m)
    | o :: rest => (Ok o, with_script rest m)
    end.

Definition answer (o : Outcome) : M unit :=
  match o with
  | Succeeds => ret tt
  | Fails e => raise e
  end.

(** [await establish_connection(BleakClient, ble_device, address)]:
    a new, connected client, or the failure. *)
Definition establish_connection (ble_device : BLEDevice) (addr : string) : M loc :=
  do! record_call (CEstablish addr) in
  let! o := next_outcome in
  do! answer o in
  let! c := fresh in
  do! modify (fun m => with_clients (<[c := true]> (clients m)) m) in
  ret c.

(** [client.is_connected] *)
Definition is_connected (c : loc) : M bool :=
  gets (fun m => clients m !!! c).

(** [await client.connect()] *)
Definition connect (c : loc) : M unit :=
  do! record_call (CConnect c) in
  let! o := next_outcome in
  do! answer o in
  modify (fun m => with_clients (<[c := true]> (clients m)) m).

(** [await client.start_notify(characteristic, callback)], nothing
    arriving meanwhile. *)
Definition start_notify (c : loc) (characteristic : string) : M unit :=
  do! record_call (CStartNotify c characteristic) in
  let! o := next_outcome in
  answer o.

(** [await client.clear_cache()] *)
Definition clear_cache (c : loc) : M unit :=
  record_call (CClearCache c).

(** [await client.disconnect()] *)
Definition disconnect (c : loc) : M unit :=
  do! record_call (CDisconnect c) in
  modify (fun m => with_clients (<[c := false]> (clients m)) m).

End Bleak.

(** ** parser.py *)

Module Parser.
Import Bleak.
Local Open Scope py_scope.

Definition BAR228_CHARACTERISTIC_UUID_READ : string :=
  "905e8e30-81e9-4796-9b75-b95cf5e30c0b".
Definition BAR228_CHARACTERISTIC_UUID_WRITE1 : string :=
  "905e8e01-81e9-4796-9b75-b95cf5e30c0b".
Definition BAR228_CHARACTERISTIC_UUID_WRITE2 : string :=
  "905e8e02-81e9-4796-9b75-b95cf5e30c0b".
Definition BAR228_CHARACTERISTIC_UUID_WRITE3 : string :=
  "905e8e03-81e9-4796-9b75-b95cf5e30c0b".
Definition BAR228_CHARACTERISTIC_UUID_WRITE4 : string :=
  "905e8e30-81e9-4796-9b75-b95cf5e30c0b".
Definition BAR228_CHARACTERISTIC_UUID_WRITE5 : string :=
  "905e8e34-81e9-4796-9b75-b95cf5e30c0b".
Definition BAR228_CHARACTERISTIC_UUID_WRITE6 : string :=
  "905e8e40-81e9-4796-9b75-b95cf5e30c0b".

(** [BAR228BluetoothDeviceData.__init__] *)
Definition __init__ (elevation : option Z) (is_metric : bool)
    (voltage : float * float) : Session :=
  {| is_metric := is_metric; elevation := elevation; voltage := voltage;
     _command_data := None; _bardevice := None;
     _bleclient := None; _event := None |}.

(** [self._bardevice] used as the object of an attribute access. *)
Definition self_bardevice : M loc :=
  let! o := gets (fun m => _bardevice (self m)) in
  deref o.

(** [self._bardevice.sensors[k] = v], the value [v] being evaluated
    already. *)
Definition sensors_setitem (k : string) (v : PyVal) : M unit :=
  let! l := self_bardevice in
  let! dl := get_sensors l in
  dict_setitem dl k v.

(** [BAR228BluetoothDeviceData.notification_handler].  In each
    assignment the right-hand side is evaluated before the target. *)
Definition notification_handler (sender : BleakGATTCharacteristic)
    (data : list Byte.byte) : M unit :=
  do! modify_self (set_command_data (Some data)) in
  do! (if (0x0013 <=? handle sender)%Z then
         let! b1 := command_data_slice 3 5 in
         let! t := lift (struct_unpack_H_le b1) in
         do! sensors_setitem "temperature" (VFloat (int_truediv t 10)) in
         let! b2 := command_data_slice 6 7 in
         let! h := lift (struct_unpack_B b2) in
         do! sensors_setitem "humidity" (VInt h) in
         let! b3 := command_data_slice 8 10 in
         let! p := lift (struct_unpack_H_le b3) in
         do! sensors_setitem "pressure" (VFloat (int_truediv p 10)) in
         let! now := datetime_now in
         sensors_setitem "last" now
       else ret tt) in
  let! ev := gets (fun m => _event (self m)) in
  match ev with
  | None => ret tt
  | Some e => event_set e
  end.

(** The decorator [disconnect_on_missing_services], applied to the
    coroutine [func].  The handler starts with [logger.warning(...)],
    whose arguments include [self.name]; then it tests [self.client]. *)
Definition disconnect_on_missing_services {A : Type} (func : M A) : M A :=
  try_except func is_missing (fun ex =>
    do! load_global "logger" in
    let! _ := self_getattr "name" in
    let! cl := self_getattr "client" in
    do! match cl with
        | Some c => do! clear_cache c in disconnect c
        | None => ret tt
        end in
    raise ex).

(** [try: await client.start_notify(characteristic, ...)
     except Exception: <log>] *)
Definition try_start_notify (client : loc) (characteristic : string) : M unit :=
  try_except (start_notify client characteristic) is_Exception
    (fun _ => ret tt).

(** The body of [_get_bar228], before decoration, no notification
    arriving while a [start_notify] is awaited;
    [Loop._get_bar228_body_during] is the body with arrivals. *)
Definition _get_bar228_body (client : loc) (device : option loc)
    : M (option loc) :=
  let! e := new_Event in
  do! modify_self (set_event (Some e)) in
  do! try_start_notify client BAR228_CHARACTERISTIC_UUID_WRITE1 in
  do! try_start_notify client BAR228_CHARACTERISTIC_UUID_WRITE2 in
  do! try_start_notify client BAR228_CHARACTERISTIC_UUID_WRITE3 in
  do! try_start_notify client BAR228_CHARACTERISTIC_UUID_WRITE4 in
  do! try_start_notify client BAR228_CHARACTERISTIC_UUID_WRITE5 in
  ret device.

(** [@disconnect_on_missing_services async def _get_bar228] *)
Definition _get_bar228 (client : loc) (device : option loc)
    : M (option loc) :=
  disconnect_on_missing_services (_get_bar228_body client device).

(** The branch of [update_device] that creates the record (the [else]
    of [if self._bardevice is not None]). *)
Definition new_bardevice (ble_device : BLEDevice) : M unit :=
  let! d := new_BAR228Device in
  do! modify_self (set_bardevice (Some d)) in
  let! l1 := self_bardevice in
  do! set_name l1 (ble_name ble_device) in
  let! l2 := self_bardevice in
  do! set_address l2 (ble_address ble_device) in
  do! sensors_setitem "temperature" VNone in
  do! sensors_setitem "humidity" VNone in
  do! sensors_setitem "pressure" VNone in
  do! sensors_setitem "last" VNone in
  modify_self (set_command_data None).

(** The branch of [update_device] for a client that exists
    ([if self._bleclient is not None]). *)
Definition existing_bleclient (c : loc) : M unit :=
  let! connected := is_connected c in
  if negb connected then
    do! connect c in
    let! dev := gets (fun m => _bardevice (self m)) in
    let! r := _get_bar228 c dev in
    modify_self (set_bardevice r)
  else ret tt.

(** The branch of [update_device] that makes the client (its [else]). *)
Definition new_bleclient (ble_device : BLEDevice) : M unit :=
  let! c := establish_connection ble_device (ble_address ble_device) in
  do! modify_self (set_bleclient (Some c)) in
  let! product := startswith (ble_name ble_device) "IDTBA228" in
  if product then
    let! dev := gets (fun m => _bardevice (self m)) in
    let! r := _get_bar228 c dev in
    modify_self (set_bardevice r)
  else ret tt.

(** [BAR228BluetoothDeviceData.update_device]; the value returned is
    [self._bardevice], a reference or [None]. *)
Definition update_device (ble_device : BLEDevice) : M (option loc) :=
  let! bd := gets (fun m => _bardevice (self m)) in
  do! match bd with
      | Some _ => ret tt
      | None => new_bardevice ble_device
      end in
  let! bc := gets (fun m => _bleclient (self m)) in
  do! match bc with
      | Some c => existing_bleclient c
      | None => new_bleclient ble_device
      end in
  gets (fun m => _bardevice (self m)).

End Parser.
Export Parser.

(** ** parser.py under the event loop

    While a coroutine is suspended in [await client.start_notify(...)]
    the event loop may hand notifications to the callback that an
    earlier [start_notify] registered.  The definitions of this module
    are [_get_bar228] and [update_device] with those arrivals made
    explicit: [arrivals] lists, for each [start_notify] of the call in
    turn, the notifications handled while it is awaited (none for a
    position past its end).  No callback is registered while
    [establish_connection] or [connect] is awaited, and the other
    statements of the two coroutines do not suspend.  The definitions of
    [Parser] are the runs in which nothing arrives. *)

Module Loop.
Import Bleak.
Local Open Scope py_scope.

(** A notification as the transport hands it to the callback. *)
Definition Notification : Type := BleakGATTCharacteristic * list Byte.byte.

(** The event loop calls [notification_handler].  An exception raised
    in a callback is reported by the loop and reaches no coroutine; what
    the handler changed before raising stays. *)
Definition callback (n : Notification) : M unit :=
  try_except (notification_handler (fst n) (snd n)) (fun _ => true)
    (fun _ => ret tt).

(** The notifications of [batch], handled in their order. *)
Definition deliver (batch : list Notification) : M unit :=
  foldr (fun n k => do! callback n in k) (ret tt) batch.

(** [await client.start_notify(characteristic, callback)], the
    notifications of [batch] arriving before the coroutine is resumed
    with the transport's answer. *)
Definition start_notify_during (batch : list Notification) (c : loc)
    (characteristic : string) : M unit :=
  do! record_call (CStartNotify c characteristic) in
  let! o := next_outcome in
  do! deliver batch in
  answer o.

Definition try_start_notify_during (batch : list Notification)
    (client : loc) (characteristic : string) : M unit :=
  try_except (start_notify_during batch client characteristic) is_Exception
    (fun _ => ret tt).

Definition _get_bar228_body_during (arrivals : list (list Notification))
    (client : loc) (device : option loc) : M (option loc) :=
  let! e := new_Event in
  do! modify_self (set_event (Some e)) in
  do! try_start_notify_during (nth 0 arrivals []) client
        BAR228_CHARACTERISTIC_UUID_WRITE1 in
  do! try_start_notify_during (nth 1 arrivals []) client
        BAR228_CHARACTERISTIC_UUID_WRITE2 in
  do! try_start_notify_during (nth 2 arrivals []) client
        BAR228_CHARACTERISTIC_UUID_WRITE3 in
  do! try_start_notify_during (nth 3 arrivals []) client
        BAR228_CHARACTERISTIC_UUID_WRITE4 in
  do! try_start_notify_during (nth 4 arrivals []) client
        BAR228_CHARACTERISTIC_UUID_WRITE5 in
  ret device.

Definition _get_bar228_during (arrivals : list (list Notification))
    (client : loc) (device : option loc) : M (option loc) :=
  disconnect_on_missing_services
    (_get_bar228_body_during arrivals client device).

Definition existing_bleclient_during (arrivals : list (list Notification))
    (c : loc) : M unit :=
  let! connected := is_connected c in
  if negb connected then
    do! connect c in
    let! dev := gets (fun m => _bardevice (self m)) in
    let! r := _get_bar228_during arrivals c dev in
    modify_self (set_bardevice r)
  else ret tt.

Definition new_bleclient_during (arrivals : list (list Notification))
    (ble_device : BLEDevice) : M unit :=
  let! c := establish_connection ble_device (ble_address ble_device) in
  do! modify_self (set_bleclient (Some c)) in
  let! product := startswith (ble_name ble_device) "IDTBA228" in
  if product then
    let! dev := gets (fun m => _bardevice (self m)) in
    let! r := _get_bar228_during arrivals c dev in
    modify_self (set_bardevice r)
  else ret tt.

Definition update_device_during (arrivals : list (list Notification))
    (ble_device : BLEDevice) : M (option loc) :=
  let! bd := gets (fun m => _bardevice (self m)) in
  do! match bd with
      | Some _ => ret tt
      | None => new_bardevice ble_device
      end in
  let! bc := gets (fun m => _bleclient (self m)) in
  do! match bc with
      | Some c => existing_bleclient_during arrivals c
      | None => new_bleclient_during arrivals ble_device
      end in
  gets (fun m => _bardevice (self m)).

End Loop.
Export Loop.

(** ** Vocabulary of the subscription phase *)

Module Phase.
Import Bleak.
Local Open Scope py_scope.

(** The five characteristics in the order [_get_bar228] subscribes to
    them. *)
Definition subscription_order : list string :=
  [ BAR228_CHARACTERISTIC_UUID_WRITE1; BAR228_CHARACTERISTIC_UUID_WRITE2;
    BAR228_CHARACTERISTIC_UUID_WRITE3; BAR228_CHARACTERISTIC_UUID_WRITE4;
    BAR228_CHARACTERISTIC_UUID_WRITE5 ].

(** The guarded subscriptions of [_get_bar228], one after the other. *)
Definition subscribe_each (client : loc) (characteristics : list string)
    : M unit :=
  foldr (fun u k => do! try_start_notify client u in k) (ret tt)
    characteristics.

(** The same subscriptions, the notifications of [arrivals] being
    handled during them: the first characteristic is awaited during
    batch [i], the next during batch [i + 1], and so on. *)
Fixpoint subscribe_each_during (arrivals : list (list Notification))
    (i : nat) (client : loc) (characteristics : list string) : M unit :=
  match characteristics with
  | [] => ret tt
  | u :: us =>
      do! try_start_notify_during (nth i arrivals []) client u in
      subscribe_each_during arrivals (S i) client us
  end.

(** An answer that lets the coroutine go on: a success, or a failure
    that [except Exception] catches. *)
Definition benign (o : Outcome) : bool :=
  match o with
  | Succeeds => true
  | Fails e => is_Exception e
  end.

(** What a guarded subscription returns on the transport's answer. *)
Definition guarded_result (o : option Outcome) : Result unit :=
  match o with
  | Some (Fails e) => if is_Exception e then Ok tt else Raise e
  | _ => Ok tt
  end.

(** The transport answers the next call with success. *)
Definition next_succeeds (m : Machine) : bool :=
  match script m with
  | Fails _ :: _ => false
  | _ => true
  end.

(** Only the record of calls and the script differ. *)
Definition transport_only (m m' : Machine) : Prop :=
  self m' = self m /\ devices m' = devices m /\ dicts m' = dicts m /\
  events m' = events m /\ clients m' = clients m /\
  next_loc m' = next_loc m /\ clock m' = clock m.

(** The session's record and every sensors mapping are the same. *)
Definition same_records (m m' : Machine) : Prop :=
  _bardevice (self m') = _bardevice (self m) /\
  devices m' = devices m /\ dicts m' = dicts m.

(** The machine once [self._event = asyncio.Event()] has run. *)
Definition armed (m : Machine) : Machine :=
  with_self (set_event (Some (next_loc m)) (self m))
    (with_events (<[next_loc m := false]> (events m))
       (with_next_loc (S (next_loc m)) m)).

(** The sensors mapping of a record just created. *)
Definition initial_sensors : gmap string PyVal :=
  <["last" := VNone]> (<["pressure" := VNone]>
    (<["humidity" := VNone]> (<["temperature" := VNone]> ∅))).

(** The machine once the record of [ble] has been created: the record
    at the next free identity, its sensors mapping at the one after. *)
Definition created (ble : BLEDevice) (m : Machine) : Machine :=
  with_self
    (set_command_data None (set_bardevice (Some (next_loc m)) (self m)))
    (with_dicts (<[S (next_loc m) := initial_sensors]> (dicts m))
       (with_devices
          (<[next_loc m := {| hw_version := ""; sw_version := "";
                              name := ble_name ble; identifier := "";
                              address := ble_address ble;
                              sensors := S (next_loc m) |}]> (devices m))
          (with_next_loc (S (S (next_loc m))) m))).

(** The machine once [establish_connection] has made a client for
    [addr]: the client is new and connected. *)
Definition linked (addr : string) (m : Machine) : Machine :=
  with_clients (<[next_loc m := true]> (clients m))
    (with_next_loc (S (next_loc m))
       (with_script (tail (script m))
          (with_calls (calls m ++ [CEstablish addr]) m))).

End Phase.
Export Phase.

(** ** The session in its environment *)

Module System.

(** A machine on which [BAR228BluetoothDeviceData(...)] was just
    constructed: nothing is allocated and no call was made. *)
Definition boot (s : Session) (t : Z) (answers : list Outcome) : Machine :=
  {| self := s; devices := ∅; dicts := ∅; events := ∅; clients := ∅;
     next_loc := 0%nat; clock := t; script := answers; calls := [] |}.

(** One step: the poller calls [update_device], the transport delivers
    a notification to the handler, or the environment moves (the
    transport fixes its next answers, time passes, a link is lost). *)
Inductive step : Machine -> Machine -> Prop :=
| step_update (ble : BLEDevice) (m : Machine) :
    step m (snd (update_device ble m))
| step_notify (sender : BleakGATTCharacteristic) (data : list Byte.byte)
    (m : Machine) :
    step m (snd (notification_handler sender data m))
| step_answers (answers : list Outcome) (m : Machine) :
    step m (with_script answers m)
| step_clock (t : Z) (m : Machine) :
    step m (with_clock t m)
| step_link_loss (c : loc) (m : Machine) :
    step m (with_clients (<[c := false]> (clients m)) m).

Inductive reachable : Machine -> Prop :=
| reachable_boot (elevation : option Z) (is_metric : bool)
    (voltage : float * float) (t : Z) (answers : list Outcome) :
    reachable (boot (__init__ elevation is_metric voltage) t answers)
| reachable_step (m m' : Machine) :
    reachable m -> step m m' -> reachable m'.

(** The fixed keys of the sensors mapping. *)
Definition sensor_keys : gset string :=
  {[ "temperature"; "humidity"; "pressure"; "last" ]}.

(** Every record the session holds has exactly the fixed keys. *)
Definition reading_ok (m : Machine) : Prop :=
  forall l, _bardevice (self m) = Some l -> dom (sensors_of m l) = sensor_keys.

End System.
Export System.


(** ** The specification's reading of a telemetry frame *)

Module Spec.

(** The unsigned byte at offset [i] of the payload. *)
Definition spec_byte_at (data : list Byte.byte) (i : nat) : Z :=
  byte_val (nth i data Byte.x00).

(** The specification's [little_endian_u16(bytes[off:off+2])]: the byte at
    [off] is the low one. *)
Definition spec_little_endian_u16 (data : list Byte.byte) (off : nat) : Z :=
  spec_byte_at data off + 256 * spec_byte_at data (off + 1).

(** The raw value scaled by dividing by 10. *)
Definition spec_scaled (raw : Z) : PyVal := VFloat (int_truediv raw 10).

End Spec.
Export Spec.

(** ** Statements of the specification that the code does not meet *)

Module Stated.

(** A notification at a telemetry handle with a payload shorter than 10
    bytes returns to the caller and leaves the reading of every record
    as it was. *)
Definition short_payload_is_ignored (sender : BleakGATTCharacteristic)
    (data : list Byte.byte) (m : Machine) : Prop :=
  0x0013 <= handle sender -> (length data < 10)%nat ->
  fst (notification_handler sender data m) = Ok tt /\
  forall l, sensors_of (snd (notification_handler sender data m)) l
            = sensors_of m l.

(** A subscription phase whose first [start_notify] fails with [e], a
    missing service or characteristic, makes exactly one [clear_cache]
    and one [disconnect] call and raises [e]. *)
Definition missing_service_recovers (e : Exn) (client : loc)
    (device : option loc) (m : Machine) : Prop :=
  head (script m) = Some (Fails e) ->
  is_missing e = true ->
  count_calls is_clear_cache (snd (_get_bar228 client device m))
    = S (count_calls is_clear_cache m) /\
  count_calls is_disconnect (snd (_get_bar228 client device m))
    = S (count_calls is_disconnect m) /\
  fst (_get_bar228 client device m) = Raise e.

(** When the first [update_device] for a device of the product returns,
    the event of the session is set and a frame was decoded: [last] of
    the returned record is a timestamp. *)
Definition first_update_waits_for_frame (ble : BLEDevice) (m : Machine) : Prop :=
  forall n, ble_name ble = Some n ->
  String.prefix "IDTBA228" n = true ->
  forall r, fst (update_device ble m) = Ok r ->
  exists l e t,
    r = Some l /\
    _event (self (snd (update_device ble m))) = Some e /\
    events (snd (update_device ble m)) !! e = Some true /\
    sensors_of (snd (update_device ble m)) l !! "last" = Some (VDatetime t).

(** Whenever the event of the session exists, it is set once a
    notification has been handled. *)
Definition every_notification_sets_event (sender : BleakGATTCharacteristic)
    (data : list Byte.byte) (m : Machine) : Prop :=
  forall e, _event (self m) = Some e ->
  events (snd (notification_handler sender data m)) !! e = Some true.

End Stated.
Export Stated.

(** ** Concrete sessions and frames *)

Module Fixture.

(** The default [voltage=(2.4, 3.2)] of the constructor. *)
Definition default_voltage : float * float :=
  (int_truediv 24 10, int_truediv 32 10).

(** A session just constructed, the transport answering every call
    with success. *)
Definition new_session : Machine :=
  boot (__init__ None true default_voltage) 1700000000 [].

Definition station : BLEDevice :=
  {| ble_name := Some "IDTBA228"; ble_address := "C4:7C:8D:6A:00:01" |}.

Definition thermometer : BLEDevice :=
  {| ble_name := Some "LYWSD03MMC"; ble_address := "A4:C1:38:00:00:02" |}.

(** A device that advertises no name. *)
Definition nameless : BLEDevice :=
  {| ble_name := None; ble_address := "D0:5F:B8:00:00:03" |}.

(** The session after a first [update_device] on the station. *)
Definition ready_session : Machine := snd (update_device station new_session).

Definition telemetry : BleakGATTCharacteristic :=
  {| handle := 0x0013; uuid := BAR228_CHARACTERISTIC_UUID_WRITE5 |}.

Definition housekeeping : BleakGATTCharacteristic :=
  {| handle := 0x0010; uuid := BAR228_CHARACTERISTIC_UUID_WRITE1 |}.

(** Eleven bytes: raw temperature 215 at 3..5, humidity 45 at 6, raw
    pressure 0x2708 = 9992 at 8..10. *)
Definition frame : list Byte.byte :=
  [ Byte.x00; Byte.x00; Byte.x00; Byte.xd7; Byte.x00; Byte.x00;
    Byte.x2d; Byte.x00; Byte.x08; Byte.x27; Byte.x00 ].

(** The first five bytes of [frame]. *)
Definition short_frame : list Byte.byte :=
  [ Byte.x00; Byte.x00; Byte.x00; Byte.xd7; Byte.x00 ].

(** The ready session about to subscribe again, the transport failing
    the first [start_notify] with a missing service. *)
Definition missing_service_session : Machine :=
  with_script [Fails BleakServiceMissing] ready_session.

End Fixture.
Export Fixture.


(** ** sensor.py *)

Module Sensor.

(** [homeassistant.components.sensor.SensorDeviceClass], the members
    the template uses. *)
Inductive SensorDeviceClass : Type :=
| TEMPERATURE
| HUMIDITY
| PRESSURE
| TIMESTAMP.

(** The units of [homeassistant.const] the template uses:
    [UnitOfTemperature.CELSIUS], [PERCENTAGE], [UnitOfPressure.MBAR]. *)
Inductive UnitOfMeasurement : Type :=
| CELSIUS
| PERCENTAGE
| MBAR.

(** [homeassistant.helpers.device_registry.CONNECTION_BLUETOOTH] *)
Inductive ConnectionType : Type :=
| CONNECTION_BLUETOOTH.

Module Description.
(** [SensorEntityDescription], the fields the template gives. *)
Record t : Type := {
  key : string;
  device_class : SensorDeviceClass;
  native_unit_of_measurement : option UnitOfMeasurement;
  name : string;
}.
End Description.

Module Info.
(** [DeviceInfo] as [BAR228Sensor.__init__] fills it. *)
Record t : Type := {
  connections : list (ConnectionType * string);
  name : string;
  manufacturer : string;
  model : string;
  hw_version : string;
  sw_version : string;
}.
End Info.

(** [DataUpdateCoordinator[BAR228Device]]: its [data] is a reference to
    the record that the update method returned. *)
Record DataUpdateCoordinator : Type := {
  data : loc;
}.

(** [class BAR228Sensor]: what [__init__] sets. *)
Record BAR228Sensor : Type := {
  coordinator : DataUpdateCoordinator;
  entity_description : Description.t;
  _attr_unique_id : string;
  _id : string;
  _attr_device_info : Info.t;
}.

(** [SENSORS_MAPPING_TEMPLATE] *)
Definition SENSORS_MAPPING_TEMPLATE : gmap string Description.t :=
  <["temperature" := {| Description.key := "temperature";
                        Description.device_class := TEMPERATURE;
                        Description.native_unit_of_measurement := Some CELSIUS;
                        Description.name := "Temperature" |}]>
  (<["humidity" := {| Description.key := "humidity";
                      Description.device_class := HUMIDITY;
                      Description.native_unit_of_measurement := Some PERCENTAGE;
                      Description.name := "Humidity" |}]>
  (<["pressure" := {| Description.key := "pressure";
                      Description.device_class := PRESSURE;
                      Description.native_unit_of_measurement := Some MBAR;
                      Description.name := "Pressure" |}]>
  (<["last" := {| Description.key := "last";
                  Description.device_class := TIMESTAMP;
                  Description.native_unit_of_measurement := None;
                  Description.name := "Last" |}]> ∅))).

(** [BAR228Sensor.__init__(coordinator, bar228_device, entity_description)];
    the fields of the record are read from the store. *)
Definition BAR228Sensor__init__ (coordinator : DataUpdateCoordinator)
    (bar228_device : loc) (entity_description : Description.t)
    (m : Machine) : BAR228Sensor :=
  let dev := devices m !!! bar228_device in
  let name := (fstring (Store.name dev) ++ " " ++ identifier dev)%string in
  {| coordinator := coordinator;
     entity_description := entity_description;
     _attr_unique_id :=
       (name ++ "_" ++ Description.key entity_description)%string;
     _id := address dev;
     _attr_device_info :=
       {| Info.connections := [(CONNECTION_BLUETOOTH, address dev)];
          Info.name := name;
          Info.manufacturer := "Oregon Scientific";
          Info.model := "BAR228";
          Info.hw_version := Store.hw_version dev;
          Info.sw_version := Store.sw_version dev |} |}.

(** The body of the loop of [async_setup_entry] for one item of
    [coordinator.data.sensors.items()]: an unknown sensor type is
    skipped. *)
Definition entity_for (coordinator : DataUpdateCoordinator) (m : Machine)
    (item : string * PyVal) : option BAR228Sensor :=
  match SENSORS_MAPPING_TEMPLATE !! fst item with
  | None => None
  | Some description =>
      Some (BAR228Sensor__init__ coordinator (data coordinator) description m)
  end.

(** [async_setup_entry]: the entities handed to [async_add_entities].
    The items of the dict are taken in the order of [map_to_list], which
    is not the insertion order of Python; statements about the entities
    are up to their order. *)
Definition async_setup_entry (coordinator : DataUpdateCoordinator)
    (m : Machine) : list BAR228Sensor :=
  omap (entity_for coordinator m)
    (map_to_list (sensors_of m (data coordinator))).

(** [self.entity_description.key] *)
Definition entity_key (self : BAR228Sensor) : string :=
  Description.key (entity_description self).

(** [BAR228Sensor.native_value]: a missing key raises [KeyError] in the
    subscript, which the method turns into [None]. *)
Definition native_value (self : BAR228Sensor) (m : Machine) : PyVal :=
  match sensors_of m (data (coordinator self))
          !! Description.key (entity_description self) with
  | Some v => v
  | None => VNone
  end.

End Sensor.

(** ** More vocabulary: calls, readings, sessions *)

Module More.
Import Bleak.

Definition is_establish (c : Call) : bool :=
  match c with CEstablish _ => true | _ => false end.

(** A call that opens or uses the link: anything but [clear_cache] and
    [disconnect]. *)
Definition keeps_link (c : Call) : bool :=
  negb (is_clear_cache c || is_disconnect c).

(** The reading that a frame handled at instant [t] leaves: a mapping
    with the four keys only. *)
Definition decoded_reading (data : list Byte.byte) (t : Z)
    : gmap string PyVal :=
  <["last" := VDatetime t]>
  (<["pressure" := spec_scaled (spec_little_endian_u16 data 8)]>
  (<["humidity" := VInt (spec_byte_at data 6)]>
  (<["temperature" := spec_scaled (spec_little_endian_u16 data 3)]> ∅))).

Definition is_connect (c : Call) : bool :=
  match c with CConnect _ => true | _ => false end.

(** The machine once the transport has answered [call]: the call is
    recorded and one answer is consumed. *)
Definition answered (call : Call) (m : Machine) : Machine :=
  with_script (tail (script m)) (with_calls (calls m ++ [call]) m).

(** From [m] to [m'] calls were only added, each satisfying [p]. *)
Definition extends (p : Call -> bool) (m m' : Machine) : Prop :=
  exists ext, calls m' = calls m ++ ext /\ forallb p ext = true.

(** The record of the session has no version and no identifier. *)
Definition versions_blank (m : Machine) : Prop :=
  forall l, _bardevice (self m) = Some l ->
    hw_version (devices m !!! l) = "" /\
    sw_version (devices m !!! l) = "" /\
    identifier (devices m !!! l) = "".

(** Every call made so far keeps the link. *)
Definition link_kept (m : Machine) : Prop :=
  forallb keeps_link (calls m) = true.

(** The ready session after the link was lost. *)
Definition dropped_session : Machine :=
  with_clients (<[2%nat := false]> (clients ready_session)) ready_session.

(** A new session whose transport refuses the connection. *)
Definition refused_session : Machine :=
  with_script [Fails BleakError] new_session.

(** The dropped session, the transport refusing to connect again. *)
Definition unreachable_session : Machine :=
  with_script [Fails BleakError] dropped_session.

(** The dropped session, the second subscription being cancelled. *)
Definition cancelled_session : Machine :=
  with_script [Succeeds; Succeeds; Fails CancelledError] dropped_session.

(** The ready session after one full frame. *)
Definition reading_session : Machine :=
  snd (notification_handler telemetry frame ready_session).

(** A frame with other values: raw temperature 0x00c8 = 200, humidity
    50, raw pressure 0x2710 = 10000. *)
Definition later_frame : list Byte.byte :=
  [ Byte.xff; Byte.xff; Byte.xff; Byte.xc8; Byte.x00; Byte.xff;
    Byte.x32; Byte.xff; Byte.x10; Byte.x27 ].

(** The machine once the notifications [ns] were handled, one after
    the other. *)
Definition handled (ns : list Notification) (m : Machine) : Machine :=
  snd (deliver ns m).

(** Every notification of [ns] is one of those that arrive. *)
Definition arrived (arrivals : list (list Notification))
    (ns : list Notification) : Prop :=
  forall n, n ∈ ns -> exists batch, batch ∈ arrivals /\ n ∈ batch.

(** The coroutine [during], in which notifications arrive, returns or
    raises as [quiet] does, in which none arrives, and leaves the
    machine that [quiet] leaves once some of the arrivals were handled
    after it. *)
Definition commutes {A : Type} (arrivals : list (list Notification))
    (during quiet : M A) : Prop :=
  forall m, exists ns,
    arrived arrivals ns /\
    during m = (fst (quiet m), handled ns (snd (quiet m))).

(** A full frame arrives while the second subscription is awaited. *)
Definition early_frame : list (list Notification) :=
  [ []; [(telemetry, frame)] ].

(** The ready session about to subscribe again, the first subscription
    failing with a missing service and the second being cancelled. *)
Definition missing_then_cancelled_session : Machine :=
  with_script [Fails BleakServiceMissing; Fails CancelledError] ready_session.

(** A second station with the same advertised name. *)
Definition twin_station : BLEDevice :=
  {| ble_name := Some "IDTBA228"; ble_address := "C4:7C:8D:6A:00:02" |}.

End More.
Export More.

(** ** Proof steps *)

(** Expose the fields of a machine, take the decoding branch of the
    handler, and normalise repeated stores into one dict. *)
Ltac open_machine m :=
  let s := fresh "s" in
  destruct m as [s ? ? ? ? ? ? ? ?]; destruct s as [? ? ? ? ? ? ?]; cbn in *.

Ltac threshold sender :=
  unfold notification_handler, bind, modify_self, modify;
  destruct (Z.leb_spec 0x0013 (handle sender)); [|lia].

Ltac tidy_dicts :=
  rewrite ?take_0; cbn;
  rewrite ?lookup_total_insert_eq, ?insert_insert_eq.

(** * Properties *)

Arguments int_truediv : simpl never.

(** ** Bytes and little-endian words *)

Section Bytes.

Lemma byte_val_range (b : Byte.byte) : 0 <= byte_val b < 256.
Proof.
  unfold byte_val. pose proof (Byte.to_N_bounded b). lia.
Qed.

(** Placing a second byte eight bits up never overlaps the first. *)
Lemma lor_shiftl_byte (lo hi : Z) :
  0 <= lo < 256 -> Z.lor lo (Z.shiftl hi 8) = lo + 256 * hi.
Proof.
  intros Hlo.
  assert (Hland : Z.land lo (Z.shiftl hi 8) = 0).
  { apply Z.bits_inj'. intros n Hn. rewrite Z.land_spec, Z.bits_0.
    destruct (Z_lt_le_dec n 8) as [Hlt|Hge].
    - rewrite Z.shiftl_spec_low by lia. apply andb_false_r.
    - destruct (Z.eq_dec lo 0) as [->|Hnz]; [now rewrite Z.bits_0|].
      rewrite (Z.bits_above_log2 lo n); [reflexivity | lia |].
      apply Z.lt_le_trans with 8; [|lia].
      apply Z.log2_lt_pow2; [lia|]. change (2 ^ 8) with 256. lia. }
  rewrite <- (Z.lxor_lor _ _ Hland), <- (Z.add_nocarry_lxor _ _ Hland).
  rewrite Z.shiftl_mul_pow2 by lia. change (2 ^ 8) with 256. lia.
Qed.

(** What [struct.unpack("<H", ...)] computes on two bytes is the
    specification's little-endian word. *)
Lemma unpack_pair (b0 b1 : Byte.byte) :
  Z.lor (byte_val b0) (Z.shiftl (byte_val b1) 8)
  = byte_val b0 + 256 * byte_val b1.
Proof. apply lor_shiftl_byte, byte_val_range. Qed.

Lemma struct_unpack_H_le_length (buf : list Byte.byte) :
  (exists z, struct_unpack_H_le buf = Ok z) <-> length buf = 2%nat.
Proof.
  destruct buf as [|b0 [|b1 [|b2 buf]]]; cbn; split;
    try (intros [z Hz]; discriminate); try discriminate; eauto.
Qed.

Lemma at_least_ten {A : Type} (data : list A) :
  (10 <= length data)%nat ->
  exists b0 b1 b2 b3 b4 b5 b6 b7 b8 b9 rest,
    data = b0 :: b1 :: b2 :: b3 :: b4 :: b5 :: b6 :: b7 :: b8 :: b9 :: rest.
Proof.
  intros H.
  do 10 (destruct data as [|? data]; [simpl in H; lia|]).
  repeat eexists.
Qed.

End Bytes.

(** ** The frame decoder *)

Section Decoder.

Implicit Types (sender : BleakGATTCharacteristic) (data : list Byte.byte).
Implicit Types (m : Machine) (l e : loc).

(** C1.  For a notification whose characteristic handle is at least
    0x0013 and whose payload has at least 10 bytes, handled on a session
    that holds a device record, the handler returns, and in the sensors
    of that record the temperature is the little-endian unsigned 16-bit
    integer of payload bytes 3..5 divided by 10, the humidity is the
    unsigned byte at offset 6, and the pressure is the little-endian
    unsigned 16-bit integer of payload bytes 8..10 divided by 10. *)
Theorem notification_handler_decodes_frame sender data m l :
  0x0013 <= handle sender ->
  (10 <= length data)%nat ->
  _bardevice (self m) = Some l ->
  fst (notification_handler sender data m) = Ok tt /\
  sensors_of (snd (notification_handler sender data m)) l !! "temperature"
    = Some (spec_scaled (spec_little_endian_u16 data 3)) /\
  sensors_of (snd (notification_handler sender data m)) l !! "humidity"
    = Some (VInt (spec_byte_at data 6)) /\
  sensors_of (snd (notification_handler sender data m)) l !! "pressure"
    = Some (spec_scaled (spec_little_endian_u16 data 8)).
Proof.
  intros Hh Hlen Hdev.
  destruct (at_least_ten data Hlen)
    as (b0 & b1 & b2 & b3 & b4 & b5 & b6 & b7 & b8 & b9 & rest & ->).
  open_machine m. subst.
  threshold sender. cbn. tidy_dicts.
  unfold sensors_of, spec_scaled, spec_little_endian_u16, spec_byte_at.
  cbn [nth Nat.add]. rewrite <- !unpack_pair.
  match goal with |- context [match ?ev with Some _ => _ | None => _ end] =>
    destruct ev end; cbn; rewrite !lookup_total_insert_eq;
    repeat split; by simplify_map_eq.
Qed.

Lemma notification_handler_decodes_frame_witness :
  fst (notification_handler telemetry frame ready_session) = Ok tt /\
  sensors_of (snd (notification_handler telemetry frame ready_session)) 0%nat
    !! "temperature" = Some (spec_scaled (spec_little_endian_u16 frame 3)) /\
  sensors_of (snd (notification_handler telemetry frame ready_session)) 0%nat
    !! "humidity" = Some (VInt (spec_byte_at frame 6)) /\
  sensors_of (snd (notification_handler telemetry frame ready_session)) 0%nat
    !! "pressure" = Some (spec_scaled (spec_little_endian_u16 frame 8)).
Proof.
  apply (notification_handler_decodes_frame telemetry frame ready_session 0%nat).
  - vm_compute. discriminate.
  - vm_compute. lia.
  - vm_compute. reflexivity.
Defined.

(** The specification's example: raw 215 is 21.5, and the frame's raw
    pressure 0x2708 = 9992 is the float nearest to 999.2. *)
Example frame_reading :
  spec_scaled (spec_little_endian_u16 frame 3) = VFloat 21.5%float /\
  spec_byte_at frame 6 = 45 /\
  spec_scaled (spec_little_endian_u16 frame 8)
    = VFloat (PrimFloat.div 9992%float 10%float).
Proof. vm_compute. repeat split. Qed.

(** C6.  A notification whose characteristic handle is strictly below
    0x0013 returns and leaves every record and every sensors mapping of
    the store as it was, whatever the payload: temperature, humidity,
    pressure and last keep their values. *)
Theorem notification_below_threshold_keeps_reading sender data m :
  handle sender < 0x0013 ->
  fst (notification_handler sender data m) = Ok tt /\
  devices (snd (notification_handler sender data m)) = devices m /\
  dicts (snd (notification_handler sender data m)) = dicts m /\
  forall l k,
    sensors_of (snd (notification_handler sender data m)) l !! k
    = sensors_of m l !! k.
Proof.
  intros Hh.
  unfold notification_handler, bind, modify_self, modify, sensors_of.
  destruct (Z.leb_spec 0x0013 (handle sender)); [lia|].
  cbn. destruct (_event (self m)); cbn; auto.
Qed.

Lemma notification_below_threshold_keeps_reading_witness :
  fst (notification_handler housekeeping frame ready_session) = Ok tt /\
  devices (snd (notification_handler housekeeping frame ready_session))
    = devices ready_session /\
  dicts (snd (notification_handler housekeeping frame ready_session))
    = dicts ready_session /\
  forall l k,
    sensors_of (snd (notification_handler housekeeping frame ready_session)) l !! k
    = sensors_of ready_session l !! k.
Proof.
  apply (notification_below_threshold_keeps_reading housekeeping frame ready_session).
  vm_compute. reflexivity.
Defined.

(** C2, as the specification states it, fails: five bytes at the
    telemetry handle make the handler raise, and the temperature of the
    record is overwritten before it does. *)
Lemma short_payload_is_not_ignored :
  ~ short_payload_is_ignored telemetry short_frame ready_session.
Proof.
  intros H. destruct H as [Hres _].
  - vm_compute. discriminate.
  - vm_compute. lia.
  - vm_compute in Hres. discriminate.
Qed.

(** What the five bytes leave behind. *)
Example short_payload_run :
  fst (notification_handler telemetry short_frame ready_session)
    = Raise StructError /\
  sensors_of ready_session 0%nat !! "temperature" = Some VNone /\
  sensors_of (snd (notification_handler telemetry short_frame ready_session))
    0%nat !! "temperature" = Some (VFloat 21.5%float).
Proof. vm_compute. repeat split. Qed.

(** C2, amended.  A notification whose handle is at least 0x0013 and
    whose payload is shorter than 10 bytes, handled on a session that
    holds a device record, raises [struct.error] to the caller of the
    handler.  It leaves pressure and last as they were, humidity too when
    the payload has fewer than 7 bytes, and the whole reading when it has
    fewer than 5; the event is not touched. *)
Theorem notification_handler_short_payload sender data m l :
  0x0013 <= handle sender ->
  (length data < 10)%nat ->
  _bardevice (self m) = Some l ->
  fst (notification_handler sender data m) = Raise StructError /\
  sensors_of (snd (notification_handler sender data m)) l !! "pressure"
    = sensors_of m l !! "pressure" /\
  sensors_of (snd (notification_handler sender data m)) l !! "last"
    = sensors_of m l !! "last" /\
  ((length data < 7)%nat ->
   sensors_of (snd (notification_handler sender data m)) l !! "humidity"
   = sensors_of m l !! "humidity") /\
  ((length data < 5)%nat ->
   sensors_of (snd (notification_handler sender data m)) l = sensors_of m l) /\
  events (snd (notification_handler sender data m)) = events m.
Proof.
  intros Hh Hlen Hdev.
  open_machine m. subst.
  threshold sender.
  do 10 (destruct data as [|? data];
    [ cbn; tidy_dicts; unfold sensors_of; cbn;
      rewrite ?lookup_total_insert_eq;
      repeat split; try (intros; by simplify_map_eq); cbn; intros; lia |]).
  cbn in Hlen. lia.
Qed.

Lemma notification_handler_short_payload_witness :
  fst (notification_handler telemetry short_frame ready_session)
    = Raise StructError /\
  sensors_of (snd (notification_handler telemetry short_frame ready_session))
    0%nat !! "pressure" = sensors_of ready_session 0%nat !! "pressure" /\
  sensors_of (snd (notification_handler telemetry short_frame ready_session))
    0%nat !! "last" = sensors_of ready_session 0%nat !! "last" /\
  ((length short_frame < 7)%nat ->
   sensors_of (snd (notification_handler telemetry short_frame ready_session))
     0%nat !! "humidity" = sensors_of ready_session 0%nat !! "humidity") /\
  ((length short_frame < 5)%nat ->
   sensors_of (snd (notification_handler telemetry short_frame ready_session))
     0%nat = sensors_of ready_session 0%nat) /\
  events (snd (notification_handler telemetry short_frame ready_session))
    = events ready_session.
Proof.
  apply (notification_handler_short_payload telemetry short_frame
           ready_session 0%nat).
  - vm_compute. discriminate.
  - vm_compute. lia.
  - vm_compute. reflexivity.
Defined.

(** C9, as stated, fails: a short payload at the telemetry handle makes
    the handler raise before it reaches the event, which stays unset. *)
Lemma short_telemetry_leaves_event_unset :
  ~ every_notification_sets_event telemetry short_frame ready_session.
Proof.
  intros H. specialize (H 3%nat eq_refl).
  vm_compute in H. discriminate.
Qed.

(** C9, amended.  While the event of the session exists, every
    notification whose handling returns sets it; handling returns for
    every notification whose characteristic handle is below 0x0013,
    which decodes nothing, so a housekeeping notification releases the
    first-reading primitive. *)
Theorem handled_notification_sets_event sender data m e :
  _event (self m) = Some e ->
  handle sender < 0x0013 \/ fst (notification_handler sender data m) = Ok tt ->
  fst (notification_handler sender data m) = Ok tt /\
  events (snd (notification_handler sender data m)) !! e = Some true.
Proof.
  intros Hev Hcase.
  open_machine m. subst.
  revert Hcase.
  unfold notification_handler, bind, modify_self, modify.
  destruct (Z.leb_spec 0x0013 (handle sender)) as [Hge|Hlt].
  - intros [Hlt|Hok]; [lia|]. revert Hok.
    match goal with |- context [{| _bardevice := ?bd |}] => destruct bd end;
      do 10 (destruct data as [|? data]; [cbn; rewrite ?take_0; cbn; try discriminate|]);
      cbn; rewrite ?take_0; cbn; try discriminate;
      intros _; split; [reflexivity | apply lookup_insert_eq].
  - intros _. cbn. split; [reflexivity | apply lookup_insert_eq].
Qed.

Lemma handled_notification_sets_event_witness :
  fst (notification_handler housekeeping frame ready_session) = Ok tt /\
  events (snd (notification_handler housekeeping frame ready_session))
    !! 3%nat = Some true.
Proof.
  apply (handled_notification_sets_event housekeeping frame ready_session 3%nat).
  - vm_compute. reflexivity.
  - left. vm_compute. reflexivity.
Defined.

End Decoder.

(** ** The subscription phase *)

Section Subscription.
Import Bleak.

Implicit Types (m : Machine) (c l : loc) (u : string) (dev : option loc).

Lemma missing_is_Exception (e : Exn) :
  is_missing e = true -> is_Exception e = true.
Proof. destruct e; cbn; congruence. Qed.

Lemma transport_only_refl m : transport_only m m.
Proof. repeat split. Qed.

Lemma transport_only_trans m1 m2 m3 :
  transport_only m1 m2 -> transport_only m2 m3 -> transport_only m1 m3.
Proof.
  unfold transport_only. intros (?&?&?&?&?&?&?) (?&?&?&?&?&?&?).
  repeat split; congruence.
Qed.

(** One guarded subscription: the call is recorded, one answer is
    consumed, and only a failure outside [Exception] is raised. *)
Lemma try_start_notify_spec c u m :
  fst (try_start_notify c u m) = guarded_result (head (script m)) /\
  calls (snd (try_start_notify c u m)) = calls m ++ [CStartNotify c u] /\
  script (snd (try_start_notify c u m)) = tail (script m) /\
  transport_only m (snd (try_start_notify c u m)).
Proof.
  open_machine m.
  unfold try_start_notify, try_except, start_notify, bind, record_call,
    next_outcome, modify, transport_only.
  cbn.
  match goal with |- context [match ?sc with [] => _ | _ :: _ => _ end] =>
    destruct sc as [|[|e] rest] end; cbn; auto 10.
  destruct (is_Exception e); cbn; auto 10.
Qed.

Lemma subscribe_each_cons c u (us : list string) m :
  subscribe_each c (u :: us) m
  = match try_start_notify c u m with
    | (Ok _, m1) => subscribe_each c us m1
    | (Raise e, m1) => (Raise e, m1)
    end.
Proof. reflexivity. Qed.

Lemma subscribe_each_spec c (us : list string) m :
  exists k,
    (k <= length us)%nat /\
    calls (snd (subscribe_each c us m))
      = calls m ++ map (CStartNotify c) (take k us) /\
    script (snd (subscribe_each c us m)) = drop k (script m) /\
    transport_only m (snd (subscribe_each c us m)) /\
    (forall e, fst (subscribe_each c us m) = Raise e -> is_Exception e = false) /\
    (fst (subscribe_each c us m) = Ok tt -> k = length us) /\
    (forallb benign (take (length us) (script m)) = true ->
     fst (subscribe_each c us m) = Ok tt).
Proof.
  revert m. induction us as [|u us IH]; intros m.
  - exists 0%nat. cbn. rewrite app_nil_r.
    split_and!; auto using transport_only_refl; discriminate.
  - rewrite subscribe_each_cons.
    destruct (try_start_notify_spec c u m) as (Hr & Hc & Hs & Ht).
    destruct (try_start_notify c u m) as [[[]|e] m1] eqn:Hrun;
      cbn [fst snd] in *.
    + destruct (IH m1) as (k & Hk & Hc' & Hs' & Ht' & He & Hok & Hall).
      exists (S k). cbn. rewrite Hc', Hs', Hc, Hs, <- app_assoc. cbn.
      split_and!; auto.
      * lia.
      * destruct (script m); cbn; [by rewrite drop_nil | reflexivity].
      * eauto using transport_only_trans.
      * intros Hall'. apply Hall. rewrite Hs.
        destruct (script m) as [|o rest]; cbn in *; [by rewrite take_nil|].
        by apply andb_prop in Hall' as [_ ?].
    + exists 1%nat. cbn. rewrite take_0. rewrite Hc, Hs. cbn.
      split_and!; auto; try discriminate.
      * lia.
      * intros e' [= <-]. destruct (script m) as [|[|e''] rest]; cbn in Hr;
          try discriminate. destruct (is_Exception e'') eqn:He; congruence.
      * intros Hall. destruct (script m) as [|[|e''] rest]; cbn in *;
          try discriminate.
        apply andb_prop in Hall as [Hb _]. by rewrite Hb in Hr.
Qed.

(** [_get_bar228], before decoration, is the new event followed by the
    five guarded subscriptions. *)
Lemma _get_bar228_body_unfold c dev m :
  _get_bar228_body c dev m
  = match subscribe_each c subscription_order (armed m) with
    | (Ok _, m1) => (Ok dev, m1)
    | (Raise e, m1) => (Raise e, m1)
    end.
Proof.
  unfold _get_bar228_body, subscription_order, subscribe_each, foldr, armed.
  unfold bind at 1 2. cbn [new_Event fresh bind modify ret modify_self].
  cbn beta iota.
  set (m0 := with_self _ _).
  unfold bind.
  repeat match goal with
  | |- context [try_start_notify c ?u ?m'] =>
      destruct (try_start_notify c u m') as [[[]|?] ?]; try reflexivity
  end.
Qed.

Lemma _get_bar228_body_spec c dev m :
  exists k,
    (k <= 5)%nat /\
    calls (snd (_get_bar228_body c dev m))
      = calls m ++ map (CStartNotify c) (take k subscription_order) /\
    script (snd (_get_bar228_body c dev m)) = drop k (script m) /\
    same_records m (snd (_get_bar228_body c dev m)) /\
    clients (snd (_get_bar228_body c dev m)) = clients m /\
    _bleclient (self (snd (_get_bar228_body c dev m))) = _bleclient (self m) /\
    _event (self (snd (_get_bar228_body c dev m))) = Some (next_loc m) /\
    events (snd (_get_bar228_body c dev m)) = <[next_loc m := false]> (events m) /\
    (forall r, fst (_get_bar228_body c dev m) = Ok r -> r = dev /\ k = 5%nat) /\
    (forall e, fst (_get_bar228_body c dev m) = Raise e -> is_Exception e = false) /\
    (forallb benign (take 5 (script m)) = true ->
     fst (_get_bar228_body c dev m) = Ok dev).
Proof.
  rewrite _get_bar228_body_unfold.
  destruct (subscribe_each_spec c subscription_order (armed m))
    as (k & Hk & Hc & Hs & (Hself & Hdv & Hdc & Hev & Hcl & _) & He & Hok & Hall).
  exists k.
  destruct (subscribe_each c subscription_order (armed m)) as [[[]|e] m1];
    cbn [fst snd] in *; unfold same_records;
    rewrite Hself, Hdv, Hdc, Hev, Hcl;
    (split_and!; [exact Hk | exact Hc | exact Hs | reflexivity .. | | | ]).
  - intros r [= <-]. auto.
  - discriminate.
  - reflexivity.
  - discriminate.
  - intros e' [= <-]. auto.
  - intros Hb. specialize (Hall Hb). discriminate.
Qed.

(** The handler of the decorator is never entered from [_get_bar228]:
    a failure that leaves the body is not an [Exception], so it is
    neither of the two classes the decorator catches. *)
Lemma _get_bar228_undecorated c dev m :
  _get_bar228 c dev m = _get_bar228_body c dev m.
Proof.
  unfold _get_bar228, disconnect_on_missing_services, try_except.
  destruct (_get_bar228_body_spec c dev m) as (k & _ & _ & _ & _ & _ & _ & _ & _ & _ & He & _).
  destruct (_get_bar228_body c dev m) as [[r|e] m1]; [reflexivity|].
  cbn in He. specialize (He e eq_refl).
  destruct (is_missing e) eqn:Hm; [|reflexivity].
  apply missing_is_Exception in Hm. congruence.
Qed.

Lemma filter_start_notify (p : Call -> bool) c (us : list string) :
  (forall u, p (CStartNotify c u) = false) ->
  List.filter p (map (CStartNotify c) us) = [].
Proof.
  intros Hp. induction us as [|u us IH]; simpl; [reflexivity|].
  rewrite Hp. exact IH.
Qed.

Lemma count_calls_start_notify (p : Call -> bool) c (us : list string) m m' :
  (forall u, p (CStartNotify c u) = false) ->
  calls m' = calls m ++ map (CStartNotify c) us ->
  count_calls p m' = count_calls p m.
Proof.
  intros Hp Hc. unfold count_calls.
  rewrite Hc, List.filter_app, length_app, filter_start_notify by exact Hp.
  simpl. lia.
Qed.

(** C3, as stated, fails: when the first subscription of the phase
    fails with [BleakServiceMissing], no [clear_cache] and no
    [disconnect] call is made and nothing is raised. *)
Lemma missing_service_is_swallowed :
  ~ missing_service_recovers BleakServiceMissing 2%nat (Some 0%nat)
      missing_service_session.
Proof.
  intros H. destruct (H eq_refl eq_refl) as (_ & _ & Hraise).
  vm_compute in Hraise. discriminate.
Qed.

(** The run behind it: all five subscriptions are attempted. *)
Example missing_service_run :
  script missing_service_session = [Fails BleakServiceMissing] /\
  fst (_get_bar228 2%nat (Some 0%nat) missing_service_session)
    = Ok (Some 0%nat) /\
  drop 6 (calls (snd (_get_bar228 2%nat (Some 0%nat) missing_service_session)))
    = map (CStartNotify 2%nat) subscription_order /\
  count_calls is_clear_cache
    (snd (_get_bar228 2%nat (Some 0%nat) missing_service_session)) = 0%nat /\
  count_calls is_disconnect
    (snd (_get_bar228 2%nat (Some 0%nat) missing_service_session)) = 0%nat.
Proof. vm_compute. repeat split. Qed.

(** Were the handler of the decorator entered, it would stop at its
    first name: [logger] is not bound in the module, so a coroutine that
    raises [BleakServiceMissing] under the decorator ends in [NameError]
    with no call made on the transport. *)
Example decorator_handler_run :
  disconnect_on_missing_services (raise BleakServiceMissing : M unit)
    ready_session
  = (Raise NameError, ready_session).
Proof. vm_compute. reflexivity. Qed.

End Subscription.

(** ** The public entry point *)

Arguments _get_bar228 : simpl never.

Section Update.
Import Bleak.

Implicit Types (m : Machine) (c l : loc) (ble : BLEDevice).

(** The record-creating branch always returns, and leaves the machine
    [created]. *)
Lemma new_bardevice_run ble m :
  new_bardevice ble m = (Ok tt, created ble m).
Proof.
  open_machine m. unfold new_bardevice, created, initial_sensors. cbn.
  rewrite !lookup_total_insert_eq. cbn.
  rewrite ?lookup_total_insert_eq, ?insert_insert_eq.
  reflexivity.
Qed.

Lemma same_records_refl m : same_records m m.
Proof. by split_and!. Qed.

Lemma same_records_trans m1 m2 m3 :
  same_records m1 m2 -> same_records m2 m3 -> same_records m1 m3.
Proof.
  unfold same_records. intros (?&?&?) (?&?&?). split_and!; congruence.
Qed.

(** A connection that is established. *)
Lemma establish_connection_ok ble addr m :
  next_succeeds m = true ->
  establish_connection ble addr m = (Ok (next_loc m), linked addr m).
Proof.
  open_machine m. unfold next_succeeds, establish_connection, linked. cbn.
  unfold bind, record_call, next_outcome, modify. cbn.
  match goal with |- context [match ?sc with [] => _ | _ :: _ => _ end] =>
    destruct sc as [|[|e] rest] end; cbn; intros; by try discriminate.
Qed.

Lemma establish_connection_frame ble addr m :
  self (snd (establish_connection ble addr m)) = self m /\
  devices (snd (establish_connection ble addr m)) = devices m /\
  dicts (snd (establish_connection ble addr m)) = dicts m.
Proof.
  open_machine m. unfold establish_connection. cbn.
  unfold bind, record_call, next_outcome, modify. cbn.
  match goal with |- context [match ?sc with [] => _ | _ :: _ => _ end] =>
    destruct sc as [|[|e] rest] end; cbn; auto.
Qed.

Lemma connect_frame c m :
  self (snd (connect c m)) = self m /\
  devices (snd (connect c m)) = devices m /\
  dicts (snd (connect c m)) = dicts m.
Proof.
  open_machine m. unfold connect. cbn.
  unfold bind, record_call, next_outcome, modify. cbn.
  match goal with |- context [match ?sc with [] => _ | _ :: _ => _ end] =>
    destruct sc as [|[|e] rest] end; cbn; auto.
Qed.

(** Assigning what [_get_bar228] returns to [self._bardevice] stores the
    reference that was there. *)
Lemma resubscribe_frame c m (res : Result unit) m' :
  (let! dev := gets (fun m => _bardevice (self m)) in
   let! r := _get_bar228 c dev in
   modify_self (set_bardevice r))%py m = (res, m') ->
  same_records m m' /\ _bleclient (self m') = _bleclient (self m).
Proof.
  unfold bind, gets. cbn beta iota. rewrite _get_bar228_undecorated.
  destruct (_get_bar228_body_spec c (_bardevice (self m)) m)
    as (k & _ & _ & _ & Hrec & _ & Hbc & _ & _ & Hok & _).
  destruct (_get_bar228_body c (_bardevice (self m)) m) as [[r|e] m1];
    cbn in *.
  - intros [= <- <-]. destruct (Hok r eq_refl) as [-> _].
    destruct Hrec as (Hbd & Hdv & Hdc). by split_and!.
  - intros [= <- <-]. by split.
Qed.

Lemma existing_bleclient_frame c m (res : Result unit) m' :
  existing_bleclient c m = (res, m') ->
  same_records m m' /\ _bleclient (self m') = _bleclient (self m).
Proof.
  unfold existing_bleclient. unfold bind at 1. cbn [is_connected gets].
  destruct (negb (clients m !!! c)).
  - unfold bind at 1.
    destruct (connect_frame c m) as (Hs & Hdv & Hdc).
    destruct (connect c m) as [[[]|e] m1]; cbn [fst snd] in *.
    + intros Hrun. apply resubscribe_frame in Hrun as [Hrec Hbc].
      split; [|congruence].
      eapply same_records_trans; [|exact Hrec]. split_and!; congruence.
    + intros [= <- <-]. split; [split_and!|]; congruence.
  - intros [= <- <-]. split; [apply same_records_refl | reflexivity].
Qed.

Lemma new_bleclient_frame ble m (res : Result unit) m' :
  new_bleclient ble m = (res, m') ->
  same_records m m' /\ (res = Ok tt -> is_Some (_bleclient (self m'))).
Proof.
  unfold new_bleclient. unfold bind at 1.
  destruct (establish_connection_frame ble (ble_address ble) m)
    as (Hs & Hdv & Hdc).
  destruct (establish_connection ble (ble_address ble) m) as [[c|e] m1];
    cbn [fst snd] in *.
  - unfold bind at 1. cbn [modify_self modify].
    set (m2 := with_self _ m1).
    assert (Hm2 : same_records m m2) by (split_and!; cbn; congruence).
    unfold bind at 1, startswith.
    destruct (ble_name ble) as [n|]; cbn [ret raise].
    + destruct (String.prefix "IDTBA228" n).
      * intros Hrun. apply resubscribe_frame in Hrun as [Hrec Hbc].
        split; [eauto using same_records_trans|].
        intros _. rewrite Hbc. by eexists.
      * intros [= <- <-]. split; [exact Hm2 | by eexists].
    + intros [= <- <-]. split; [exact Hm2 | discriminate].
  - intros [= <- <-]. split; [split_and!; congruence | discriminate].
Qed.

(** What [update_device] does to the record of the session, and what it
    returns. *)
Lemma update_device_spec ble m :
  same_records
    (match _bardevice (self m) with Some _ => m | None => created ble m end)
    (snd (update_device ble m)) /\
  (forall r, fst (update_device ble m) = Ok r ->
     r = _bardevice (self (snd (update_device ble m))) /\
     is_Some (_bleclient (self (snd (update_device ble m))))).
Proof.
  destruct (update_device ble m) as [res m'] eqn:Hrun. cbn [fst snd].
  revert Hrun.
  unfold update_device. unfold bind at 1 2. cbn [gets].
  set (m0 := match _bardevice (self m) with Some _ => m | None => created ble m end).
  replace (match _bardevice (self m) with
           | Some _ => ret ()
           | None => new_bardevice ble
           end m) with (@Ok unit tt, m0)
    by (subst m0; destruct (_bardevice (self m));
        [reflexivity | by rewrite new_bardevice_run]).
  unfold bind at 1. cbn [gets]. unfold bind.
  destruct (_bleclient (self m0)) as [c|] eqn:Hbc.
  - destruct (existing_bleclient c m0) as [[[]|e] m1] eqn:Hrun;
      apply existing_bleclient_frame in Hrun as [Hrec Hbc'];
      cbn [gets]; intros [= <- <-].
    + split; [exact Hrec|]. intros r [= <-]. split; [reflexivity|].
      rewrite Hbc', Hbc. by eexists.
    + split; [exact Hrec | discriminate].
  - destruct (new_bleclient ble m0) as [[[]|e] m1] eqn:Hrun;
      apply new_bleclient_frame in Hrun as [Hrec Hsome];
      cbn [gets]; intros [= <- <-].
    + split; [exact Hrec|]. intros r [= <-]. auto.
    + split; [exact Hrec | discriminate].
Qed.

Lemma update_device_first_block ble m :
  match _bardevice (self m) with
  | Some _ => ret tt
  | None => new_bardevice ble
  end m
  = (Ok tt, match _bardevice (self m) with Some _ => m | None => created ble m end).
Proof.
  destruct (_bardevice (self m)); [reflexivity | apply new_bardevice_run].
Qed.

(** The machine before the client is looked at: the record exists. *)
Lemma first_block_facts ble m :
  let m0 := match _bardevice (self m) with
            | Some _ => m
            | None => created ble m
            end in
  _bleclient (self m0) = _bleclient (self m) /\
  next_succeeds m0 = next_succeeds m /\
  script m0 = script m /\
  calls m0 = calls m /\
  _event (self m0) = _event (self m) /\
  events m0 = events m /\
  clients m0 = clients m /\
  is_Some (_bardevice (self m0)).
Proof.
  cbn zeta. destruct (_bardevice (self m)) eqn:Hd; cbn; by split_and!.
Qed.

(** The whole run of a first call on a device of another name. *)
Lemma update_device_other_name_run ble n m :
  _bleclient (self m) = None ->
  ble_name ble = Some n ->
  String.prefix "IDTBA228" n = false ->
  next_succeeds m = true ->
  let m0 := match _bardevice (self m) with
            | Some _ => m
            | None => created ble m
            end in
  update_device ble m
  = (Ok (_bardevice (self m0)),
     with_self (set_bleclient (Some (next_loc m0)) (self m0))
       (linked (ble_address ble) m0)).
Proof.
  intros Hc Hn Hp Hs m0.
  destruct (first_block_facts ble m) as (Hc0 & Hs0 & _).
  fold m0 in Hc0, Hs0. rewrite Hc in Hc0. rewrite Hs in Hs0.
  unfold update_device, bind, gets. cbn beta.
  rewrite update_device_first_block. fold m0. cbn beta iota.
  rewrite Hc0. unfold new_bleclient, bind, startswith.
  rewrite (establish_connection_ok _ _ _ Hs0), Hn. cbn [ret].
  rewrite Hp. reflexivity.
Qed.

(** A first [update_device], the session holding no client yet, on a
    device that advertises a name which does not start with "IDTBA228"
    and whose connection is established: the call returns the record;
    the only transport call it makes is the connection, so no
    subscription is attempted and nothing is disconnected; the event of
    the session is left as it was, not even created; and the new client
    reports connected. *)
Lemma update_device_other_name_skips_subscription ble n m :
  _bleclient (self m) = None ->
  ble_name ble = Some n ->
  String.prefix "IDTBA228" n = false ->
  next_succeeds m = true ->
  exists l c,
    fst (update_device ble m) = Ok (Some l) /\
    _bleclient (self (snd (update_device ble m))) = Some c /\
    clients (snd (update_device ble m)) !! c = Some true /\
    calls (snd (update_device ble m)) = calls m ++ [CEstablish (ble_address ble)] /\
    count_calls is_start_notify (snd (update_device ble m))
      = count_calls is_start_notify m /\
    count_calls is_disconnect (snd (update_device ble m))
      = count_calls is_disconnect m /\
    _event (self (snd (update_device ble m))) = _event (self m) /\
    events (snd (update_device ble m)) = events m.
Proof.
  intros Hc Hn Hp Hs.
  rewrite (update_device_other_name_run ble n m Hc Hn Hp Hs). cbn zeta.
  destruct (first_block_facts ble m)
    as (_ & _ & _ & Hcalls & Hev & Hevs & _ & [l Hl]).
  cbn zeta in *.
  set (m0 := match _bardevice (self m) with Some _ => m | None => created ble m end) in *.
  clearbody m0.
  exists l, (next_loc m0). unfold count_calls. cbn.
  rewrite Hl, Hcalls, Hev, Hevs, !List.filter_app, !length_app. cbn.
  split_and!; try reflexivity; try lia. apply lookup_insert_eq.
Qed.

(** The run on the thermometer. *)
Example thermometer_update_run :
  fst (update_device thermometer new_session) = Ok (Some 0%nat) /\
  _bleclient (self (snd (update_device thermometer new_session))) = Some 2%nat /\
  clients (snd (update_device thermometer new_session)) !! 2%nat = Some true /\
  calls (snd (update_device thermometer new_session))
    = [CEstablish (ble_address thermometer)] /\
  _event (self (snd (update_device thermometer new_session))) = None.
Proof. vm_compute. repeat split. Qed.

(** The whole run of a first call on a device that advertises no name:
    the connection is made and the client kept, then
    [ble_device.name.startswith] fails on [None]. *)
Lemma update_device_nameless_run ble m :
  _bleclient (self m) = None ->
  ble_name ble = None ->
  next_succeeds m = true ->
  let m0 := match _bardevice (self m) with
            | Some _ => m
            | None => created ble m
            end in
  update_device ble m
  = (Raise AttributeError,
     with_self (set_bleclient (Some (next_loc m0)) (self m0))
       (linked (ble_address ble) m0)).
Proof.
  intros Hc Hn Hs m0.
  destruct (first_block_facts ble m) as (Hc0 & Hs0 & _).
  fold m0 in Hc0, Hs0. rewrite Hc in Hc0. rewrite Hs in Hs0.
  unfold update_device, bind, gets. cbn beta.
  rewrite update_device_first_block. fold m0. cbn beta iota.
  rewrite Hc0. unfold new_bleclient, bind, startswith.
  rewrite (establish_connection_ok _ _ _ Hs0), Hn. reflexivity.
Qed.

(** C8, where the code departs from it.  A first [update_device], the
    session holding no client yet, on a device that advertises no name,
    the connection being established: the call does not complete.  It
    raises [AttributeError] once the client is made, stored in the
    session and connected; the connection is its only transport call
    and nothing is subscribed or disconnected. *)
Theorem update_device_nameless_raises ble m :
  _bleclient (self m) = None ->
  ble_name ble = None ->
  next_succeeds m = true ->
  fst (update_device ble m) = Raise AttributeError /\
  (forall r, fst (update_device ble m) <> Ok r) /\
  exists c,
    _bleclient (self (snd (update_device ble m))) = Some c /\
    clients (snd (update_device ble m)) !! c = Some true /\
    calls (snd (update_device ble m)) = calls m ++ [CEstablish (ble_address ble)] /\
    count_calls is_start_notify (snd (update_device ble m))
      = count_calls is_start_notify m /\
    count_calls is_disconnect (snd (update_device ble m))
      = count_calls is_disconnect m.
Proof.
  intros Hc Hn Hs.
  rewrite (update_device_nameless_run ble m Hc Hn Hs). cbn zeta.
  destruct (first_block_facts ble m) as (_ & _ & _ & Hcalls & _).
  cbn zeta in *.
  set (m0 := match _bardevice (self m) with Some _ => m | None => created ble m end) in *.
  clearbody m0.
  split_and!; [reflexivity | discriminate |].
  exists (next_loc m0). unfold count_calls. cbn.
  rewrite Hcalls, !List.filter_app, !length_app. cbn.
  split_and!; try reflexivity; try lia. apply lookup_insert_eq.
Qed.

Lemma update_device_nameless_raises_witness :
  fst (update_device nameless new_session) = Raise AttributeError /\
  (forall r, fst (update_device nameless new_session) <> Ok r) /\
  exists c,
    _bleclient (self (snd (update_device nameless new_session))) = Some c /\
    clients (snd (update_device nameless new_session)) !! c = Some true /\
    calls (snd (update_device nameless new_session))
      = calls new_session ++ [CEstablish (ble_address nameless)] /\
    count_calls is_start_notify (snd (update_device nameless new_session))
      = count_calls is_start_notify new_session /\
    count_calls is_disconnect (snd (update_device nameless new_session))
      = count_calls is_disconnect new_session.
Proof.
  apply (update_device_nameless_raises nameless new_session).
  - vm_compute. reflexivity.
  - vm_compute. reflexivity.
  - vm_compute. reflexivity.
Defined.

Lemma update_device_same_records ble m l :
  _bardevice (self m) = Some l -> same_records m (snd (update_device ble m)).
Proof.
  intros Hd. destruct (update_device_spec ble m) as [Hrec _].
  by rewrite Hd in Hrec.
Qed.

(** C10.  An [update_device] on a session that already holds a record
    keeps that very record: [self._bardevice] is the same reference, no
    record and no sensors mapping of the store is changed, so the name,
    the address and the mapping the record refers to are those the first
    call set, whatever device the later call names and whether it
    returns or raises. *)
Theorem update_device_reuses_record ble m l :
  _bardevice (self m) = Some l ->
  _bardevice (self (snd (update_device ble m))) = Some l /\
  devices (snd (update_device ble m)) = devices m /\
  dicts (snd (update_device ble m)) = dicts m /\
  name (devices (snd (update_device ble m)) !!! l) = name (devices m !!! l) /\
  address (devices (snd (update_device ble m)) !!! l) = address (devices m !!! l) /\
  sensors (devices (snd (update_device ble m)) !!! l) = sensors (devices m !!! l).
Proof.
  intros Hd. destruct (update_device_same_records ble m l Hd) as (Hbd & Hdv & Hdc).
  rewrite Hbd, Hdv, Hdc. by split_and!.
Qed.

Lemma update_device_reuses_record_witness :
  _bardevice (self (snd (update_device thermometer ready_session))) = Some 0%nat /\
  devices (snd (update_device thermometer ready_session)) = devices ready_session /\
  dicts (snd (update_device thermometer ready_session)) = dicts ready_session /\
  name (devices (snd (update_device thermometer ready_session)) !!! 0%nat)
    = name (devices ready_session !!! 0%nat) /\
  address (devices (snd (update_device thermometer ready_session)) !!! 0%nat)
    = address (devices ready_session !!! 0%nat) /\
  sensors (devices (snd (update_device thermometer ready_session)) !!! 0%nat)
    = sensors (devices ready_session !!! 0%nat).
Proof.
  apply (update_device_reuses_record thermometer ready_session 0%nat).
  vm_compute. reflexivity.
Defined.

(** Only a call on a session without a record makes one, from the
    device it is given; and every call leaves a record behind, even one
    that raises. *)
Lemma update_device_creates_record ble m :
  _bardevice (self m) = None ->
  _bardevice (self (snd (update_device ble m))) = Some (next_loc m) /\
  name (devices (snd (update_device ble m)) !!! next_loc m) = ble_name ble /\
  address (devices (snd (update_device ble m)) !!! next_loc m) = ble_address ble /\
  sensors_of (snd (update_device ble m)) (next_loc m) = initial_sensors.
Proof.
  intros Hd. destruct (update_device_spec ble m) as [(Hbd & Hdv & Hdc) _].
  rewrite Hd in *. unfold sensors_of. rewrite Hbd, Hdv, Hdc. cbn.
  rewrite ?lookup_total_insert_eq. cbn. rewrite ?lookup_total_insert_eq.
  by split_and!.
Qed.

Lemma update_device_leaves_record ble m :
  is_Some (_bardevice (self (snd (update_device ble m)))).
Proof.
  destruct (_bardevice (self m)) as [l|] eqn:Hd.
  - destruct (update_device_same_records ble m l Hd) as [-> _]. by eexists.
  - destruct (update_device_creates_record ble m Hd) as [-> _]. by eexists.
Qed.

(** On a session that holds a record and a client that reports
    connected, [update_device] touches nothing and returns the record. *)
Lemma update_device_connected ble m l c :
  _bardevice (self m) = Some l ->
  _bleclient (self m) = Some c ->
  clients m !!! c = true ->
  update_device ble m = (Ok (Some l), m).
Proof.
  intros Hd Hc Hconn.
  unfold update_device, existing_bleclient, bind, gets, is_connected.
  rewrite Hd. cbn. rewrite Hc. cbn. rewrite Hconn. cbn. by rewrite Hd.
Qed.

(** C5.  Two [update_device] calls in sequence, the first returning and
    the client reporting connected afterwards: the second call changes
    nothing at all, so it makes no [start_notify] call, and it returns
    the same record. *)
Theorem update_device_twice ble ble' m r c :
  fst (update_device ble m) = Ok r ->
  _bleclient (self (snd (update_device ble m))) = Some c ->
  clients (snd (update_device ble m)) !!! c = true ->
  update_device ble' (snd (update_device ble m))
    = (Ok r, snd (update_device ble m)) /\
  count_calls is_start_notify
    (snd (update_device ble' (snd (update_device ble m))))
    = count_calls is_start_notify (snd (update_device ble m)).
Proof.
  intros Hok Hc Hconn.
  destruct (update_device_spec ble m) as [_ Hres].
  destruct (Hres r Hok) as [-> _].
  destruct (update_device_leaves_record ble m) as [l Hl].
  rewrite (update_device_connected ble' _ l c Hl Hc Hconn), Hl. by split.
Qed.

Lemma update_device_twice_witness :
  update_device station (snd (update_device station new_session))
    = (Ok (Some 0%nat), snd (update_device station new_session)) /\
  count_calls is_start_notify
    (snd (update_device station (snd (update_device station new_session))))
    = count_calls is_start_notify (snd (update_device station new_session)).
Proof.
  apply (update_device_twice station station new_session (Some 0%nat) 2%nat).
  - vm_compute. reflexivity.
  - vm_compute. reflexivity.
  - vm_compute. reflexivity.
Defined.

(** C4, as stated, fails: the first call on the station returns while
    the event of the session is unset and no frame was decoded. *)
Lemma first_update_does_not_wait :
  ~ first_update_waits_for_frame station new_session.
Proof.
  intros H.
  destruct (H "IDTBA228" eq_refl eq_refl (Some 0%nat) eq_refl)
    as (l & e & t & _ & He & Hset & _).
  vm_compute in He. injection He as <-.
  vm_compute in Hset. discriminate.
Qed.

(** The first call for a device of the product when no notification
    arrives before it returns: the event is created, the five
    subscriptions are attempted and the record is returned, its reading
    untouched. *)
Lemma first_update_run ble n m :
  _bardevice (self m) = None ->
  _bleclient (self m) = None ->
  ble_name ble = Some n ->
  String.prefix "IDTBA228" n = true ->
  next_succeeds m = true ->
  forallb benign (take 5 (tail (script m))) = true ->
  fst (update_device ble m) = Ok (Some (next_loc m)) /\
  calls (snd (update_device ble m))
    = calls m ++ CEstablish (ble_address ble)
                 :: map (CStartNotify (S (S (next_loc m)))) subscription_order /\
  _event (self (snd (update_device ble m))) = Some (S (S (S (next_loc m)))) /\
  events (snd (update_device ble m)) !! S (S (S (next_loc m))) = Some false /\
  sensors_of (snd (update_device ble m)) (next_loc m) = initial_sensors.
Proof.
  intros Hd Hc Hn Hp Hs Hb.
  destruct (update_device ble m) as [res m'] eqn:Hrun. cbn [fst snd].
  revert Hrun.
  unfold update_device, bind, gets. cbn beta.
  rewrite update_device_first_block, Hd. cbn beta iota.
  change (_bleclient (self (created ble m))) with (_bleclient (self m)).
  rewrite Hc. unfold new_bleclient, bind, gets, startswith.
  rewrite (establish_connection_ok ble (ble_address ble) (created ble m) Hs), Hn.
  cbn [ret]. rewrite Hp.
  cbn [modify_self modify]. cbn beta iota.
  set (c := next_loc (created ble m)).
  set (m2 := with_self _ (linked _ _)).
  rewrite _get_bar228_undecorated.
  destruct (_get_bar228_body_spec c (_bardevice (self m2)) m2)
    as (k & _ & Hcalls & _ & (Hbd & Hdv & Hdc) & _ & _ & Hev & Hevs & Hok & _ & Hall).
  specialize (Hall Hb).
  destruct (_get_bar228_body c (_bardevice (self m2)) m2) as [[r|e] m3];
    cbn [fst snd] in *; [|discriminate].
  destruct (Hok r eq_refl) as [-> ->]. clear Hok Hall.
  intros [= <- <-].
  unfold sensors_of. cbn.
  rewrite Hcalls, Hev, Hevs, Hdv, Hdc. cbn.
  rewrite <- app_assoc, ?lookup_total_insert_eq. cbn.
  rewrite ?lookup_total_insert_eq.
  split_and!; try reflexivity. apply lookup_insert_eq.
Qed.

End Update.

(** ** The reading over the life of a session *)

Section Reading.

Implicit Types (m : Machine) (l : loc) (ble : BLEDevice).

Lemma initial_sensors_dom : dom initial_sensors = sensor_keys.
Proof.
  vm_compute. reflexivity.
Qed.

(** Storing under one of the fixed keys keeps the set of keys. *)
Lemma dom_insert_sensor (k : string) (v : PyVal) (d : gmap string PyVal) :
  k ∈ sensor_keys -> dom d = sensor_keys -> dom (<[k := v]> d) = sensor_keys.
Proof.
  intros Hk Hd. rewrite dom_insert_L, Hd.
  apply subseteq_union_1_L. by apply singleton_subseteq_l.
Qed.

Lemma reading_ok_boot s t answers :
  _bardevice s = None -> reading_ok (boot s t answers).
Proof. intros Hs l. cbn. congruence. Qed.

Lemma reading_ok_same_records m m' :
  same_records m m' -> reading_ok m -> reading_ok m'.
Proof.
  intros (Hbd & Hdv & Hdc) Hok l. unfold sensors_of.
  rewrite Hbd, Hdv, Hdc. apply Hok.
Qed.

Lemma reading_ok_created ble m : reading_ok (created ble m).
Proof.
  intros l. unfold sensors_of. cbn. intros [= <-].
  rewrite lookup_total_insert_eq. cbn. rewrite lookup_total_insert_eq.
  apply initial_sensors_dom.
Qed.

Lemma reading_ok_update ble m :
  reading_ok m -> reading_ok (snd (update_device ble m)).
Proof.
  intros Hok. destruct (update_device_spec ble m) as [Hrec _].
  eapply reading_ok_same_records; [exact Hrec|].
  destruct (_bardevice (self m)); [exact Hok | apply reading_ok_created].
Qed.

Lemma reading_ok_notify sender data m :
  reading_ok m -> reading_ok (snd (notification_handler sender data m)).
Proof.
  intros Hok l. specialize (Hok l). revert Hok.
  open_machine m. unfold sensors_of. cbn.
  unfold notification_handler, bind, modify_self, modify.
  destruct (0x0013 <=? handle sender)%Z.
  - destruct _bardevice0 as [l0|];
      do 10 (destruct data as [|? data];
             [ cbn; tidy_dicts; try (destruct _event0; cbn; tauto);
               intros Hok Hl; specialize (Hok Hl); injection Hl as <-;
               rewrite ?lookup_total_insert_eq;
               repeat (apply dom_insert_sensor; [by vm_compute|]); exact Hok |]);
      cbn; tidy_dicts; destruct _event0; cbn; try tauto;
      intros Hok Hl; specialize (Hok Hl); injection Hl as <-;
      rewrite ?lookup_total_insert_eq;
      repeat (apply dom_insert_sensor; [by vm_compute|]); exact Hok.
  - cbn. destruct _event0; cbn; tauto.
Qed.

Lemma reading_ok_step m m' : step m m' -> reading_ok m -> reading_ok m'.
Proof.
  intros Hstep Hok. destruct Hstep.
  - by apply reading_ok_update.
  - by apply reading_ok_notify.
  - exact Hok.
  - exact Hok.
  - exact Hok.
Qed.

Lemma reachable_reading_ok m : reachable m -> reading_ok m.
Proof.
  induction 1 as [el im vo t answers | m m' _ IH Hstep].
  - by apply reading_ok_boot.
  - eauto using reading_ok_step.
Qed.

(** C7.  On every machine that a session reaches from its construction,
    an [update_device] that returns gives a reference to a record, never
    [None], and the sensors mapping of that record has exactly the four
    fixed keys temperature, humidity, pressure and last.  A value under
    a key may be [None], which is a value of its own kind: it differs
    from every int and every float, zero included. *)
Theorem update_device_returns_reading ble m (r : option loc) :
  reachable m ->
  fst (update_device ble m) = Ok r ->
  (exists l,
     r = Some l /\
     _bardevice (self (snd (update_device ble m))) = Some l /\
     dom (sensors_of (snd (update_device ble m)) l) = sensor_keys /\
     forall k, k ∈ sensor_keys ->
       is_Some (sensors_of (snd (update_device ble m)) l !! k)) /\
  (forall z, VNone <> VInt z) /\
  (forall f, VNone <> VFloat f).
Proof.
  intros Hreach Hret. split; [|split; discriminate].
  destruct (update_device_spec ble m) as [_ Hres].
  destruct (Hres r Hret) as [-> _].
  destruct (update_device_leaves_record ble m) as [l Hl].
  pose proof (reading_ok_update ble m (reachable_reading_ok m Hreach) l Hl)
    as Hdom.
  exists l. split_and!; auto.
  intros k Hk. apply elem_of_dom. by rewrite Hdom.
Qed.

Lemma update_device_returns_reading_witness :
  (exists l,
     Some 0%nat = Some l /\
     _bardevice (self (snd (update_device station new_session))) = Some l /\
     dom (sensors_of (snd (update_device station new_session)) l) = sensor_keys /\
     forall k, k ∈ sensor_keys ->
       is_Some (sensors_of (snd (update_device station new_session)) l !! k)) /\
  (forall z, VNone <> VInt z) /\
  (forall f, VNone <> VFloat f).
Proof.
  apply (update_device_returns_reading station new_session (Some 0%nat)).
  - apply reachable_boot.
  - vm_compute. reflexivity.
Defined.

(** Before the first frame every value of the reading is [None]. *)
Example reading_before_first_frame :
  sensors_of ready_session 0%nat !! "temperature" = Some VNone /\
  sensors_of ready_session 0%nat !! "humidity" = Some VNone /\
  sensors_of ready_session 0%nat !! "pressure" = Some VNone /\
  sensors_of ready_session 0%nat !! "last" = Some VNone.
Proof. vm_compute. repeat split. Qed.

End Reading.

(** * Further properties *)

(** ** The handler on the whole machine *)

Section Handler.

Implicit Types (sender : BleakGATTCharacteristic) (data : list Byte.byte).
Implicit Types (m : Machine) (l e : loc).

(** The four stores of a full frame, over the mapping that was there. *)
Lemma handler_full_frame sender data m l :
  0x0013 <= handle sender ->
  (10 <= length data)%nat ->
  _bardevice (self m) = Some l ->
  fst (notification_handler sender data m) = Ok tt /\
  sensors_of (snd (notification_handler sender data m)) l
  = <["last" := VDatetime (clock m)]>
    (<["pressure" := spec_scaled (spec_little_endian_u16 data 8)]>
    (<["humidity" := VInt (spec_byte_at data 6)]>
    (<["temperature" := spec_scaled (spec_little_endian_u16 data 3)]>
       (sensors_of m l)))).
Proof.
  intros Hh Hlen Hdev.
  destruct (at_least_ten data Hlen)
    as (b0 & b1 & b2 & b3 & b4 & b5 & b6 & b7 & b8 & b9 & rest & ->).
  open_machine m. subst.
  threshold sender. cbn. tidy_dicts.
  unfold sensors_of, spec_scaled, spec_little_endian_u16, spec_byte_at.
  cbn [nth Nat.add]. rewrite <- !unpack_pair.
  destruct _event0; cbn; by rewrite !lookup_total_insert_eq.
Qed.

(** Four stores under the fixed keys fill a mapping that has no other
    key. *)
Lemma four_stores_fill (v1 v2 v3 v4 : PyVal) (d : gmap string PyVal) :
  dom d ⊆ sensor_keys ->
  <["last" := v4]> (<["pressure" := v3]> (<["humidity" := v2]>
    (<["temperature" := v1]> d)))
  = <["last" := v4]> (<["pressure" := v3]> (<["humidity" := v2]>
      (<["temperature" := v1]> ∅))).
Proof.
  intros Hd. apply map_eq. intros k.
  rewrite !lookup_insert. repeat case_decide; try reflexivity.
  rewrite lookup_empty. apply not_elem_of_dom. intros Hk.
  apply Hd in Hk. unfold sensor_keys in Hk.
  rewrite !elem_of_union, !elem_of_singleton in Hk.
  destruct Hk as [[[Hk|Hk]|Hk]|Hk]; congruence.
Qed.

(** X1.  On a session whose reading has the four keys, a full frame at
    a telemetry handle replaces the whole reading: what is left is
    determined by payload bytes 3, 4, 6, 8 and 9 and by the clock at the
    moment of handling, [last] being that clock reading; no earlier
    value remains. *)
Theorem full_frame_replaces_reading sender data m l :
  0x0013 <= handle sender ->
  (10 <= length data)%nat ->
  _bardevice (self m) = Some l ->
  dom (sensors_of m l) = sensor_keys ->
  sensors_of (snd (notification_handler sender data m)) l
  = decoded_reading data (clock m).
Proof.
  intros Hh Hlen Hdev Hdom.
  destruct (handler_full_frame sender data m l Hh Hlen Hdev) as [_ ->].
  unfold decoded_reading. apply four_stores_fill. by rewrite Hdom.
Qed.

Lemma full_frame_replaces_reading_witness :
  sensors_of (snd (notification_handler telemetry frame ready_session)) 0%nat
  = decoded_reading frame (clock ready_session).
Proof.
  apply (full_frame_replaces_reading telemetry frame ready_session 0%nat).
  - vm_compute. discriminate.
  - vm_compute. lia.
  - vm_compute. reflexivity.
  - vm_compute. reflexivity.
Defined.

(** What a notification leaves alone, whatever it carries and whether
    the handler returns or raises. *)
Lemma handler_frame sender data m :
  self (snd (notification_handler sender data m))
    = set_command_data (Some data) (self m) /\
  devices (snd (notification_handler sender data m)) = devices m /\
  clients (snd (notification_handler sender data m)) = clients m /\
  calls (snd (notification_handler sender data m)) = calls m /\
  script (snd (notification_handler sender data m)) = script m /\
  next_loc (snd (notification_handler sender data m)) = next_loc m /\
  clock (snd (notification_handler sender data m)) = clock m.
Proof.
  open_machine m.
  unfold notification_handler, bind, modify_self, modify.
  destruct (0x0013 <=? handle sender)%Z.
  - destruct _bardevice0 as [l0|];
      do 10 (destruct data as [|? data];
             [cbn; rewrite ?take_0; cbn; by split_and! |]);
      cbn; rewrite ?take_0; cbn; destruct _event0; cbn; by split_and!.
  - cbn. destruct _event0; cbn; by split_and!.
Qed.

(** X2.  No notification reaches the transport or the records: the
    handler, returning or raising, keeps the payload as the buffer and
    changes nothing else of the session, makes no transport call,
    consumes no answer, allocates nothing, and the only mapping and the
    only event it may change are the session's own. *)
Theorem notification_stays_local sender data m :
  self (snd (notification_handler sender data m))
    = set_command_data (Some data) (self m) /\
  devices (snd (notification_handler sender data m)) = devices m /\
  clients (snd (notification_handler sender data m)) = clients m /\
  calls (snd (notification_handler sender data m)) = calls m /\
  script (snd (notification_handler sender data m)) = script m /\
  next_loc (snd (notification_handler sender data m)) = next_loc m /\
  (forall dl,
     (forall l, _bardevice (self m) = Some l -> sensors (devices m !!! l) <> dl) ->
     dicts (snd (notification_handler sender data m)) !! dl = dicts m !! dl) /\
  (forall e,
     _event (self m) <> Some e ->
     events (snd (notification_handler sender data m)) !! e = events m !! e).
Proof.
  destruct (handler_frame sender data m) as (Hs & Hdv & Hcl & Hca & Hsc & Hnl & _).
  split_and!; try assumption.
  - intros dl. clear. open_machine m.
    unfold notification_handler, bind, modify_self, modify.
    destruct (0x0013 <=? handle sender)%Z.
    + destruct _bardevice0 as [l0|];
        do 10 (destruct data as [|? data];
               [cbn; rewrite ?take_0; cbn; intros Hne;
                try specialize (Hne _ eq_refl);
                by rewrite ?lookup_insert_ne by exact Hne |]);
        cbn; rewrite ?take_0; cbn; destruct _event0; cbn; intros Hne;
        try specialize (Hne _ eq_refl);
        by rewrite ?lookup_insert_ne by exact Hne.
    + cbn. destruct _event0; cbn; reflexivity.
  - intros e. clear. open_machine m.
    unfold notification_handler, bind, modify_self, modify.
    destruct (0x0013 <=? handle sender)%Z.
    + destruct _bardevice0 as [l0|];
        do 10 (destruct data as [|? data];
               [cbn; rewrite ?take_0; cbn; reflexivity |]);
        cbn; rewrite ?take_0; cbn; destruct _event0 as [e0|]; cbn;
        intros Hne; try reflexivity;
        apply lookup_insert_ne; congruence.
    + cbn. destruct _event0 as [e0|]; cbn; intros Hne; try reflexivity.
      apply lookup_insert_ne; congruence.
Qed.

(** X3.  The later frame wins: after two full telemetry frames the
    reading is the one the second frame alone would have left, whatever
    time passed in between. *)
Theorem later_frame_wins sender1 sender2 data1 data2 (t : Z) m l :
  0x0013 <= handle sender1 ->
  0x0013 <= handle sender2 ->
  (10 <= length data1)%nat ->
  (10 <= length data2)%nat ->
  _bardevice (self m) = Some l ->
  sensors_of
    (snd (notification_handler sender2 data2
            (with_clock t (snd (notification_handler sender1 data1 m))))) l
  = sensors_of (snd (notification_handler sender2 data2 (with_clock t m))) l.
Proof.
  intros Hh1 Hh2 Hl1 Hl2 Hdev.
  destruct (handler_frame sender1 data1 m) as (Hs & _).
  destruct (handler_full_frame sender1 data1 m l Hh1 Hl1 Hdev) as [_ H1].
  set (m1 := snd (notification_handler sender1 data1 m)) in *.
  assert (Hdev1 : _bardevice (self (with_clock t m1)) = Some l)
    by (cbn; rewrite Hs; exact Hdev).
  destruct (handler_full_frame sender2 data2 (with_clock t m1) l Hh2 Hl2 Hdev1)
    as [_ ->].
  destruct (handler_full_frame sender2 data2 (with_clock t m) l Hh2 Hl2 Hdev)
    as [_ ->].
  change (sensors_of (with_clock t m1) l) with (sensors_of m1 l).
  change (sensors_of (with_clock t m) l) with (sensors_of m l).
  rewrite H1. apply map_eq. intros k.
  rewrite !lookup_insert. by repeat case_decide.
Qed.

Lemma later_frame_wins_witness :
  sensors_of
    (snd (notification_handler telemetry later_frame
            (with_clock 1700000060
               (snd (notification_handler telemetry frame ready_session)))))
    0%nat
  = sensors_of
      (snd (notification_handler telemetry later_frame
              (with_clock 1700000060 ready_session))) 0%nat.
Proof.
  apply (later_frame_wins telemetry telemetry frame later_frame 1700000060
           ready_session 0%nat).
  - vm_compute. discriminate.
  - vm_compute. discriminate.
  - vm_compute. lia.
  - vm_compute. lia.
  - vm_compute. reflexivity.
Defined.

Lemma spec_byte_at_range data (i : nat) : 0 <= spec_byte_at data i <= 255.
Proof.
  unfold spec_byte_at. pose proof (byte_val_range (nth i data Byte.x00)). lia.
Qed.

(** X4.  The decoder is unsigned: after a full frame the humidity is an
    int between 0 and 255, and temperature and pressure are a raw value
    between 0 and 65535 divided by 10, so neither is ever negative. *)
Theorem decoded_values_are_unsigned sender data m l :
  0x0013 <= handle sender ->
  (10 <= length data)%nat ->
  _bardevice (self m) = Some l ->
  exists t h p,
    0 <= t <= 65535 /\ 0 <= h <= 255 /\ 0 <= p <= 65535 /\
    sensors_of (snd (notification_handler sender data m)) l !! "temperature"
      = Some (VFloat (int_truediv t 10)) /\
    sensors_of (snd (notification_handler sender data m)) l !! "humidity"
      = Some (VInt h) /\
    sensors_of (snd (notification_handler sender data m)) l !! "pressure"
      = Some (VFloat (int_truediv p 10)).
Proof.
  intros Hh Hlen Hdev.
  destruct (handler_full_frame sender data m l Hh Hlen Hdev) as [_ ->].
  exists (spec_little_endian_u16 data 3), (spec_byte_at data 6),
         (spec_little_endian_u16 data 8).
  unfold spec_little_endian_u16.
  pose proof (spec_byte_at_range data 3).
  pose proof (spec_byte_at_range data (3 + 1)).
  pose proof (spec_byte_at_range data 6).
  pose proof (spec_byte_at_range data 8).
  pose proof (spec_byte_at_range data (8 + 1)).
  split_and!; try lia; by simplify_map_eq.
Qed.

Lemma decoded_values_are_unsigned_witness :
  exists t h p,
    0 <= t <= 65535 /\ 0 <= h <= 255 /\ 0 <= p <= 65535 /\
    sensors_of (snd (notification_handler telemetry frame ready_session))
      0%nat !! "temperature" = Some (VFloat (int_truediv t 10)) /\
    sensors_of (snd (notification_handler telemetry frame ready_session))
      0%nat !! "humidity" = Some (VInt h) /\
    sensors_of (snd (notification_handler telemetry frame ready_session))
      0%nat !! "pressure" = Some (VFloat (int_truediv p 10)).
Proof.
  apply (decoded_values_are_unsigned telemetry frame ready_session 0%nat).
  - vm_compute. discriminate.
  - vm_compute. lia.
  - vm_compute. reflexivity.
Defined.

(** X5.  A telemetry notification on a session that has no record yet
    (constructed, never updated) raises and stores nothing:
    [struct.error] when the payload has fewer than 5 bytes, otherwise
    [AttributeError] from [self._bardevice.sensors]; the store and the
    event are as before. *)
Theorem notification_before_record_raises sender data m :
  0x0013 <= handle sender ->
  _bardevice (self m) = None ->
  fst (notification_handler sender data m)
    = Raise (if (length data <? 5)%nat then StructError else AttributeError) /\
  dicts (snd (notification_handler sender data m)) = dicts m /\
  devices (snd (notification_handler sender data m)) = devices m /\
  events (snd (notification_handler sender data m)) = events m.
Proof.
  intros Hh Hdev. open_machine m. subst.
  threshold sender.
  do 5 (destruct data as [|? data]; [cbn; by split_and! |]).
  cbn. by split_and!.
Qed.

Lemma notification_before_record_raises_witness :
  fst (notification_handler telemetry frame new_session)
    = Raise (if (length frame <? 5)%nat then StructError else AttributeError) /\
  dicts (snd (notification_handler telemetry frame new_session))
    = dicts new_session /\
  devices (snd (notification_handler telemetry frame new_session))
    = devices new_session /\
  events (snd (notification_handler telemetry frame new_session))
    = events new_session.
Proof.
  apply (notification_before_record_raises telemetry frame new_session).
  - vm_compute. discriminate.
  - vm_compute. reflexivity.
Defined.

End Handler.

(** ** Connection, reconnection and their failures *)

Section Link.
Import Bleak.

Implicit Types (m : Machine) (c l : loc) (ble : BLEDevice) (p : Call -> bool).

Lemma extends_refl p m : extends p m m.
Proof. exists []. by rewrite app_nil_r. Qed.

Lemma extends_trans p m1 m2 m3 :
  extends p m1 m2 -> extends p m2 m3 -> extends p m1 m3.
Proof.
  intros (e1 & H1 & Hp1) (e2 & H2 & Hp2). exists (e1 ++ e2).
  rewrite H2, H1, <- app_assoc, forallb_app, Hp1, Hp2. by split.
Qed.

Lemma extends_same_calls p m m' : calls m' = calls m -> extends p m m'.
Proof. intros H. exists []. by rewrite app_nil_r. Qed.

Lemma extends_weaken p q m m' :
  (forall x, p x = true -> q x = true) -> extends p m m' -> extends q m m'.
Proof.
  intros Hpq (ext & H & Hp). exists ext. split; [exact H|].
  apply forallb_forall. intros x Hx.
  apply Hpq. by apply (proj1 (forallb_forall p ext) Hp).
Qed.

Lemma filter_excluded p (q : Call -> bool) (ext : list Call) :
  (forall x, p x = true -> q x = false) ->
  forallb p ext = true -> List.filter q ext = [].
Proof.
  intros Hpq. induction ext as [|x ext IH]; simpl; [reflexivity|].
  intros Hp. apply andb_prop in Hp as [Hx Hp]. rewrite (Hpq x Hx). by apply IH.
Qed.

Lemma count_calls_extends p (q : Call -> bool) m m' :
  (forall x, p x = true -> q x = false) -> extends p m m' ->
  count_calls q m' = count_calls q m.
Proof.
  intros Hpq (ext & H & Hp). unfold count_calls.
  rewrite H, List.filter_app, length_app, (filter_excluded p q ext Hpq Hp).
  simpl. lia.
Qed.

(** A connection that the transport refuses. *)
Lemma establish_connection_fails ble addr m (e : Exn) :
  head (script m) = Some (Fails e) ->
  establish_connection ble addr m = (Raise e, answered (CEstablish addr) m).
Proof.
  open_machine m. unfold establish_connection, answered. cbn.
  unfold bind, record_call, next_outcome, modify. cbn.
  destruct script0 as [|[|e'] rest]; cbn; intros; by simplify_eq.
Qed.

Lemma connect_ok c m :
  next_succeeds m = true ->
  connect c m
  = (Ok tt, with_clients (<[c := true]> (clients m)) (answered (CConnect c) m)).
Proof.
  open_machine m. unfold next_succeeds, connect, answered. cbn.
  unfold bind, record_call, next_outcome, modify. cbn.
  destruct script0 as [|[|e] rest]; cbn; intros; by try discriminate.
Qed.

Lemma connect_fails c m (e : Exn) :
  head (script m) = Some (Fails e) ->
  connect c m = (Raise e, answered (CConnect c) m).
Proof.
  open_machine m. unfold connect, answered. cbn.
  unfold bind, record_call, next_outcome, modify. cbn.
  destruct script0 as [|[|e'] rest]; cbn; intros; by simplify_eq.
Qed.

(** The whole run of a call that cannot establish the connection. *)
Lemma update_device_refused_run ble m (e : Exn) :
  _bleclient (self m) = None ->
  head (script m) = Some (Fails e) ->
  let m0 := match _bardevice (self m) with
            | Some _ => m
            | None => created ble m
            end in
  update_device ble m = (Raise e, answered (CEstablish (ble_address ble)) m0).
Proof.
  intros Hc Hs m0.
  destruct (first_block_facts ble m) as (Hc0 & _ & Hs0 & _).
  fold m0 in Hc0, Hs0. rewrite Hc in Hc0. rewrite <- Hs0 in Hs.
  unfold update_device, bind, gets. cbn beta.
  rewrite update_device_first_block. fold m0. cbn beta iota.
  rewrite Hc0. unfold new_bleclient, bind.
  by rewrite (establish_connection_fails _ _ _ _ Hs).
Qed.

(** X6.  When the transport fails to establish the first connection,
    [update_device] raises that very failure to its caller after the
    one connection attempt; the session still has no client, no event
    was created, but the record exists, so the next call connects again
    and reuses it. *)
Theorem first_connection_failure_raises ble m (e : Exn) :
  _bleclient (self m) = None ->
  head (script m) = Some (Fails e) ->
  fst (update_device ble m) = Raise e /\
  _bleclient (self (snd (update_device ble m))) = None /\
  is_Some (_bardevice (self (snd (update_device ble m)))) /\
  calls (snd (update_device ble m))
    = calls m ++ [CEstablish (ble_address ble)] /\
  clients (snd (update_device ble m)) = clients m /\
  _event (self (snd (update_device ble m))) = _event (self m) /\
  events (snd (update_device ble m)) = events m.
Proof.
  intros Hc Hs.
  rewrite (update_device_refused_run ble m e Hc Hs). cbn zeta.
  destruct (first_block_facts ble m)
    as (Hc0 & _ & _ & Hcalls & Hev & Hevs & Hcl & Hbd).
  cbn zeta in *.
  set (m0 := match _bardevice (self m) with Some _ => m | None => created ble m end) in *.
  clearbody m0. cbn. rewrite Hc0, Hcalls, Hev, Hevs, Hcl. by split_and!.
Qed.

Lemma first_connection_failure_raises_witness :
  fst (update_device station refused_session) = Raise BleakError /\
  _bleclient (self (snd (update_device station refused_session))) = None /\
  is_Some (_bardevice (self (snd (update_device station refused_session)))) /\
  calls (snd (update_device station refused_session))
    = calls refused_session ++ [CEstablish (ble_address station)] /\
  clients (snd (update_device station refused_session))
    = clients refused_session /\
  _event (self (snd (update_device station refused_session)))
    = _event (self refused_session) /\
  events (snd (update_device station refused_session))
    = events refused_session.
Proof.
  apply (first_connection_failure_raises station refused_session BleakError).
  - vm_compute. reflexivity.
  - vm_compute. reflexivity.
Defined.

(** The reconnecting call when no notification arrives before it
    returns: one [connect], the five subscriptions with the same client,
    and a new event, still unset. *)
Lemma reconnect_run ble m l c :
  _bardevice (self m) = Some l ->
  _bleclient (self m) = Some c ->
  clients m !!! c = false ->
  next_succeeds m = true ->
  forallb benign (take 5 (tail (script m))) = true ->
  fst (update_device ble m) = Ok (Some l) /\
  _bleclient (self (snd (update_device ble m))) = Some c /\
  clients (snd (update_device ble m)) !! c = Some true /\
  calls (snd (update_device ble m))
    = calls m ++ CConnect c :: map (CStartNotify c) subscription_order /\
  _event (self (snd (update_device ble m))) = Some (next_loc m) /\
  events (snd (update_device ble m)) !! next_loc m = Some false.
Proof.
  intros Hd Hc Hconn Hs Hb.
  destruct (update_device ble m) as [res m'] eqn:Hrun. cbn [fst snd].
  revert Hrun.
  unfold update_device, bind, gets, ret. cbn beta.
  rewrite Hd. cbn beta iota. rewrite Hc.
  unfold existing_bleclient, is_connected, bind, gets. cbn beta.
  rewrite Hconn. cbn [negb]. cbn beta iota.
  rewrite (connect_ok c m Hs). cbn beta iota.
  set (m2 := with_clients _ _).
  rewrite _get_bar228_undecorated.
  destruct (_get_bar228_body_spec c (_bardevice (self m2)) m2)
    as (k & _ & Hcalls & _ & (Hbd & _ & _) & Hcl & Hbc & Hev & Hevs & Hok & _ & Hall).
  specialize (Hall Hb).
  destruct (_get_bar228_body c (_bardevice (self m2)) m2) as [[r|e] m3];
    cbn [fst snd] in *; [|discriminate].
  destruct (Hok r eq_refl) as [-> ->]. clear Hok Hall.
  intros [= <- <-]. subst m2. cbn in *.
  rewrite ?Hcalls, ?Hev, ?Hevs, ?Hcl, ?Hbc, ?Hbd, ?Hd, ?Hc, <- ?app_assoc. cbn.
  split_and!; try reflexivity; apply lookup_insert_eq.
Qed.

(** X8.  When [connect] fails on a session whose client reports
    disconnected, [update_device] raises that failure after the one
    attempt: nothing is subscribed, the session keeps its record, its
    client and its event, and the client still reports disconnected. *)
Theorem reconnect_failure_raises ble m l c (e : Exn) :
  _bardevice (self m) = Some l ->
  _bleclient (self m) = Some c ->
  clients m !!! c = false ->
  head (script m) = Some (Fails e) ->
  fst (update_device ble m) = Raise e /\
  self (snd (update_device ble m)) = self m /\
  clients (snd (update_device ble m)) = clients m /\
  events (snd (update_device ble m)) = events m /\
  calls (snd (update_device ble m)) = calls m ++ [CConnect c].
Proof.
  intros Hd Hc Hconn Hs.
  unfold update_device, bind, gets, ret. cbn beta.
  rewrite Hd. cbn beta iota. rewrite Hc.
  unfold existing_bleclient, is_connected, bind, gets. cbn beta.
  rewrite Hconn. cbn [negb]. cbn beta iota.
  rewrite (connect_fails c m e Hs). cbn. by split_and!.
Qed.

Lemma reconnect_failure_raises_witness :
  fst (update_device station unreachable_session) = Raise BleakError /\
  self (snd (update_device station unreachable_session))
    = self unreachable_session /\
  clients (snd (update_device station unreachable_session))
    = clients unreachable_session /\
  events (snd (update_device station unreachable_session))
    = events unreachable_session /\
  calls (snd (update_device station unreachable_session))
    = calls unreachable_session ++ [CConnect 2%nat].
Proof.
  apply (reconnect_failure_raises station unreachable_session 0%nat 2%nat
           BleakError).
  - vm_compute. reflexivity.
  - vm_compute. reflexivity.
  - vm_compute. reflexivity.
  - vm_compute. reflexivity.
Defined.

Lemma establish_connection_calls ble addr m :
  extends is_establish m (snd (establish_connection ble addr m)).
Proof.
  exists [CEstablish addr]. split; [|reflexivity].
  open_machine m. unfold establish_connection. cbn.
  unfold bind, record_call, next_outcome, modify. cbn.
  destruct script0 as [|[|e] rest]; reflexivity.
Qed.

Lemma connect_calls c m : extends is_connect m (snd (connect c m)).
Proof.
  exists [CConnect c]. split; [|reflexivity].
  open_machine m. unfold connect. cbn.
  unfold bind, record_call, next_outcome, modify. cbn.
  destruct script0 as [|[|e] rest]; reflexivity.
Qed.

Lemma forallb_start_notify c (us : list string) :
  forallb is_start_notify (map (CStartNotify c) us) = true.
Proof. induction us as [|u us IH]; simpl; [reflexivity | exact IH]. Qed.

Lemma _get_bar228_calls c (dev : option loc) m :
  extends is_start_notify m (snd (_get_bar228 c dev m)).
Proof.
  rewrite _get_bar228_undecorated.
  destruct (_get_bar228_body_spec c dev m) as (k & _ & Hc & _).
  eexists. split; [exact Hc | apply forallb_start_notify].
Qed.

Lemma resubscribe_calls c m (res : Result unit) m' :
  (let! dev := gets (fun m => _bardevice (self m)) in
   let! r := _get_bar228 c dev in
   modify_self (set_bardevice r))%py m = (res, m') ->
  extends is_start_notify m m'.
Proof.
  unfold bind, gets. cbn beta iota.
  pose proof (_get_bar228_calls c (_bardevice (self m)) m) as Hext.
  destruct (_get_bar228 c (_bardevice (self m)) m) as [[r|e] m1];
    cbn in *; intros [= <- <-]; exact Hext.
Qed.

Lemma existing_bleclient_calls c m (res : Result unit) m' :
  existing_bleclient c m = (res, m') ->
  extends (fun x => is_connect x || is_start_notify x) m m'.
Proof.
  unfold existing_bleclient. unfold bind at 1. cbn [is_connected gets].
  destruct (negb (clients m !!! c)).
  - unfold bind at 1.
    pose proof (connect_calls c m) as Hext.
    destruct (connect c m) as [[[]|e] m1]; cbn [fst snd] in *.
    + intros Hrun. apply resubscribe_calls in Hrun.
      eapply extends_trans; eapply extends_weaken; eauto;
        intros x ->; by rewrite ?orb_true_r.
    + intros [= <- <-]. eapply extends_weaken; eauto. by intros x ->.
  - intros [= <- <-]. apply extends_refl.
Qed.

Lemma new_bleclient_calls ble m (res : Result unit) m' :
  new_bleclient ble m = (res, m') ->
  extends (fun x => is_establish x || is_start_notify x) m m'.
Proof.
  unfold new_bleclient. unfold bind at 1.
  pose proof (establish_connection_calls ble (ble_address ble) m) as Hext.
  destruct (establish_connection ble (ble_address ble) m) as [[c|e] m1];
    cbn [fst snd] in *.
  - unfold bind at 1. cbn [modify_self modify].
    set (m2 := with_self _ m1).
    assert (Hm2 : extends (fun x => is_establish x || is_start_notify x) m m2).
    { eapply extends_trans; [|apply (extends_same_calls _ m1 m2); reflexivity].
      eapply extends_weaken; eauto. by intros x ->. }
    unfold bind at 1, startswith.
    destruct (ble_name ble) as [n|]; cbn [ret raise].
    + destruct (String.prefix "IDTBA228" n).
      * intros Hrun. apply resubscribe_calls in Hrun.
        eapply extends_trans; [exact Hm2|].
        eapply extends_weaken; eauto. intros x ->. by rewrite orb_true_r.
      * intros [= <- <-]. exact Hm2.
    + intros [= <- <-]. exact Hm2.
  - intros [= <- <-]. eapply extends_weaken; eauto. by intros x ->.
Qed.

(** The calls of one [update_device]: they open or use the link, and
    with a client present none of them makes another client. *)
Lemma update_device_calls ble m :
  extends keeps_link m (snd (update_device ble m)) /\
  (forall c, _bleclient (self m) = Some c ->
     _bleclient (self (snd (update_device ble m))) = Some c /\
     extends (fun x => is_connect x || is_start_notify x) m
       (snd (update_device ble m))).
Proof.
  destruct (update_device ble m) as [res m'] eqn:Hrun. cbn [fst snd].
  revert Hrun.
  unfold update_device. unfold bind at 1 2. cbn [gets].
  rewrite update_device_first_block.
  destruct (first_block_facts ble m) as (Hbc0 & _ & _ & Hcalls0 & _).
  cbn zeta in *.
  set (m0 := match _bardevice (self m) with Some _ => m | None => created ble m end) in *.
  clearbody m0.
  unfold bind at 1. cbn [gets]. unfold bind.
  destruct (_bleclient (self m0)) as [c|] eqn:Hbc.
  - destruct (existing_bleclient c m0) as [r1 m1] eqn:Hrun.
    pose proof (existing_bleclient_frame c m0 r1 m1 Hrun) as [_ Hkeep].
    apply existing_bleclient_calls in Hrun.
    assert (Hext : extends (fun x => is_connect x || is_start_notify x) m m1).
    { eapply extends_trans; [apply (extends_same_calls _ m m0); exact Hcalls0|].
      exact Hrun. }
    intros Hres.
    assert (m' = m1) as ->
      by (destruct r1; unfold gets in Hres; cbn in Hres; congruence).
    split.
    + eapply extends_weaken; [|exact Hext]. by intros [] [?|?]%orb_prop.
    + intros c' Hc'. rewrite <- Hbc0 in Hc'. split; congruence.
  - destruct (new_bleclient ble m0) as [r1 m1] eqn:Hrun.
    apply new_bleclient_calls in Hrun.
    intros Hres.
    assert (m' = m1) as ->
      by (destruct r1; unfold gets in Hres; cbn in Hres; congruence).
    split.
    + eapply extends_trans; [apply (extends_same_calls _ m m0); exact Hcalls0|].
      eapply extends_weaken; [|exact Hrun]. by intros [] [?|?]%orb_prop.
    + intros c' Hc'. congruence.
Qed.

(** X9.  A session never holds a second client: once it has one,
    [update_device] keeps that client, whatever the call does and
    whether it returns or raises, and makes no further
    [establish_connection] call. *)
Theorem client_is_never_replaced ble m c :
  _bleclient (self m) = Some c ->
  _bleclient (self (snd (update_device ble m))) = Some c /\
  count_calls is_establish (snd (update_device ble m))
    = count_calls is_establish m.
Proof.
  intros Hc. destruct (update_device_calls ble m) as [_ H].
  destruct (H c Hc) as [Hkeep Hext]. split; [exact Hkeep|].
  eapply count_calls_extends; [|exact Hext]. by intros [] [?|?]%orb_prop.
Qed.

Lemma client_is_never_replaced_witness :
  _bleclient (self (snd (update_device twin_station dropped_session)))
    = Some 2%nat /\
  count_calls is_establish (snd (update_device twin_station dropped_session))
    = count_calls is_establish dropped_session.
Proof.
  apply (client_is_never_replaced twin_station dropped_session 2%nat).
  vm_compute. reflexivity.
Defined.

Lemma link_kept_step m m' : step m m' -> link_kept m -> link_kept m'.
Proof.
  unfold link_kept. intros Hstep Hm. destruct Hstep.
  - destruct (update_device_calls ble m) as [(ext & -> & Hext) _].
    by rewrite forallb_app, Hm, Hext.
  - destruct (handler_frame sender data m) as (_ & _ & _ & -> & _). exact Hm.
  - exact Hm.
  - exact Hm.
  - exact Hm.
Qed.

Lemma reachable_link_kept m : reachable m -> link_kept m.
Proof.
  induction 1 as [el im vo t answers | m m' _ IH Hstep].
  - reflexivity.
  - eauto using link_kept_step.
Qed.

(** X10.  Over the whole life of a session, whatever the transport
    answers and whatever notifications arrive, no [disconnect] and no
    [clear_cache] call is ever made: the recovery of the decorator
    never runs and the session never closes its link. *)
Theorem session_never_disconnects m :
  reachable m ->
  count_calls is_disconnect m = 0%nat /\
  count_calls is_clear_cache m = 0%nat.
Proof.
  intros Hm. apply reachable_link_kept in Hm. unfold link_kept in Hm.
  unfold count_calls.
  rewrite (filter_excluded keeps_link is_disconnect (calls m)),
          (filter_excluded keeps_link is_clear_cache (calls m)); auto.
  - by intros [].
  - by intros [].
Qed.

Lemma session_never_disconnects_witness :
  count_calls is_disconnect (snd (update_device station new_session)) = 0%nat /\
  count_calls is_clear_cache (snd (update_device station new_session)) = 0%nat.
Proof.
  apply (session_never_disconnects (snd (update_device station new_session))).
  eapply reachable_step; [apply reachable_boot | apply step_update].
Defined.

(** The phase stops at the first failure that [except Exception] does
    not catch. *)
Lemma subscribe_each_stops c (us : list string) m (j : nat) (e : Exn) :
  (j < length us)%nat ->
  forallb benign (take j (script m)) = true ->
  script m !! j = Some (Fails e) ->
  is_Exception e = false ->
  fst (subscribe_each c us m) = Raise e /\
  calls (snd (subscribe_each c us m))
    = calls m ++ map (CStartNotify c) (take (S j) us).
Proof.
  revert m j. induction us as [|u us IH]; intros m j Hj Hb Hat He;
    [simpl in Hj; lia|].
  rewrite subscribe_each_cons.
  destruct (try_start_notify_spec c u m) as (Hr & Hc & Hs & _).
  destruct (script m) as [|o rest] eqn:Hscript; [by destruct j|].
  destruct j as [|j].
  - cbn in Hat. injection Hat as ->. cbn in Hr. rewrite He in Hr.
    destruct (try_start_notify c u m) as [[[]|e'] m1]; cbn [fst snd] in *;
      [discriminate|].
    injection Hr as ->. rewrite Hc. cbn. by rewrite take_0.
  - cbn in Hat, Hb. apply andb_prop in Hb as [Ho Hb].
    assert (Hok : guarded_result (head (o :: rest)) = Ok tt).
    { destruct o as [|e0]; cbn in *; [reflexivity | by rewrite Ho]. }
    rewrite Hok in Hr.
    destruct (try_start_notify c u m) as [[[]|e'] m1]; cbn [fst snd] in *;
      [|discriminate].
    cbn in Hs. simpl in Hj.
    destruct (IH m1 j) as [Hres Hcalls];
      [lia | by rewrite Hs | by rewrite Hs | exact He |].
    split; [exact Hres|]. rewrite Hcalls, Hc, <- app_assoc. reflexivity.
Qed.

(** X11.  A failure of [start_notify] that is not an [Exception], such
    as a cancellation, is not swallowed: [_get_bar228] raises it to its
    caller at once, the characteristics after it are not subscribed, and
    the decorator still makes no [clear_cache] or [disconnect] call. *)
Theorem cancellation_stops_subscriptions c (dev : option loc) m (j : nat) (e : Exn) :
  (j < 5)%nat ->
  forallb benign (take j (script m)) = true ->
  script m !! j = Some (Fails e) ->
  is_Exception e = false ->
  fst (_get_bar228 c dev m) = Raise e /\
  calls (snd (_get_bar228 c dev m))
    = calls m ++ map (CStartNotify c) (take (S j) subscription_order) /\
  count_calls is_clear_cache (snd (_get_bar228 c dev m))
    = count_calls is_clear_cache m /\
  count_calls is_disconnect (snd (_get_bar228 c dev m))
    = count_calls is_disconnect m.
Proof.
  intros Hj Hb Hat He.
  rewrite _get_bar228_undecorated, _get_bar228_body_unfold.
  destruct (subscribe_each_stops c subscription_order (armed m) j e Hj Hb Hat He)
    as [Hres Hcalls].
  destruct (subscribe_each c subscription_order (armed m)) as [[[]|e'] m1];
    cbn [fst snd] in *; [discriminate|].
  injection Hres as ->. change (calls (armed m)) with (calls m) in Hcalls.
  split_and!; [reflexivity | exact Hcalls | ..];
    eapply count_calls_start_notify; [|exact Hcalls| |exact Hcalls]; reflexivity.
Qed.

Lemma cancellation_stops_subscriptions_witness :
  fst (_get_bar228 2%nat (Some 0%nat) cancelled_session) = Raise CancelledError /\
  calls (snd (_get_bar228 2%nat (Some 0%nat) cancelled_session))
    = calls cancelled_session
      ++ map (CStartNotify 2%nat) (take 3 subscription_order) /\
  count_calls is_clear_cache (snd (_get_bar228 2%nat (Some 0%nat) cancelled_session))
    = count_calls is_clear_cache cancelled_session /\
  count_calls is_disconnect (snd (_get_bar228 2%nat (Some 0%nat) cancelled_session))
    = count_calls is_disconnect cancelled_session.
Proof.
  apply (cancellation_stops_subscriptions 2%nat (Some 0%nat) cancelled_session
           2%nat CancelledError).
  - lia.
  - vm_compute. reflexivity.
  - vm_compute. reflexivity.
  - vm_compute. reflexivity.
Defined.

Lemma versions_blank_same_records m m' :
  same_records m m' -> versions_blank m -> versions_blank m'.
Proof.
  intros (Hbd & Hdv & _) Hok l. rewrite Hbd, Hdv. apply Hok.
Qed.

Lemma versions_blank_created ble m : versions_blank (created ble m).
Proof.
  intros l. cbn. intros [= <-]. by rewrite lookup_total_insert_eq.
Qed.

Lemma versions_blank_step m m' : step m m' -> versions_blank m -> versions_blank m'.
Proof.
  intros Hstep Hm. destruct Hstep; try exact Hm.
  - destruct (update_device_spec ble m) as [Hrec _].
    eapply versions_blank_same_records; [exact Hrec|].
    destruct (_bardevice (self m)); [exact Hm | apply versions_blank_created].
  - destruct (handler_frame sender data m) as (Hs & Hdv & _).
    intros l. rewrite Hs, Hdv. apply Hm.
Qed.

Lemma reachable_versions_blank m : reachable m -> versions_blank m.
Proof.
  induction 1 as [el im vo t answers | m m' _ IH Hstep].
  - intros l. cbn. discriminate.
  - eauto using versions_blank_step.
Qed.

End Link.

(** ** Notifications that arrive during the subscriptions *)

Section Arrivals.
Import Bleak.

Implicit Types (m : Machine) (c l : loc) (ble : BLEDevice).
Implicit Types (ns batch : list Notification).
Implicit Types (arrivals : list (list Notification)).

(** The handler neither reads nor writes the record of calls and the
    script. *)
Lemma handler_answered sender data (call : Call) m :
  notification_handler sender data (answered call m)
  = (fst (notification_handler sender data m),
     answered call (snd (notification_handler sender data m))).
Proof.
  open_machine m.
  unfold answered, notification_handler, bind, modify_self, modify.
  destruct (0x0013 <=? handle sender)%Z.
  - destruct _bardevice0 as [l0|];
      do 10 (destruct data as [|? data];
             [cbn; rewrite ?take_0; cbn; reflexivity |]);
      cbn; rewrite ?take_0; cbn; destruct _event0; cbn; reflexivity.
  - cbn. destruct _event0; cbn; reflexivity.
Qed.

(** The only event a notification touches is the session's, which it
    sets. *)
Lemma handler_events sender data m :
  events (snd (notification_handler sender data m)) = events m \/
  exists e, _event (self m) = Some e /\
    events (snd (notification_handler sender data m)) = <[e := true]> (events m).
Proof.
  open_machine m.
  unfold notification_handler, bind, modify_self, modify.
  destruct (0x0013 <=? handle sender)%Z.
  - destruct _bardevice0 as [l0|];
      do 10 (destruct data as [|? data];
             [cbn; rewrite ?take_0; cbn; by left |]);
      cbn; rewrite ?take_0; cbn; destruct _event0; cbn; eauto.
  - cbn. destruct _event0; cbn; eauto.
Qed.

Lemma callback_run (n : Notification) m :
  callback n m = (Ok tt, snd (notification_handler (fst n) (snd n) m)).
Proof.
  unfold callback, try_except.
  by destruct (notification_handler (fst n) (snd n) m) as [[[]|e] m1].
Qed.

Lemma deliver_cons (n : Notification) ns m :
  deliver (n :: ns) m
  = deliver ns (snd (notification_handler (fst n) (snd n) m)).
Proof.
  unfold deliver. cbn [foldr]. unfold bind at 1. by rewrite callback_run.
Qed.

Lemma deliver_ok ns m : fst (deliver ns m) = Ok tt.
Proof.
  revert m. induction ns as [|n ns IH]; intros m; [reflexivity|].
  rewrite deliver_cons. apply IH.
Qed.

Lemma handled_nil m : handled [] m = m.
Proof. reflexivity. Qed.

Lemma handled_cons (n : Notification) ns m :
  handled (n :: ns) m
  = handled ns (snd (notification_handler (fst n) (snd n) m)).
Proof. unfold handled. by rewrite deliver_cons. Qed.

Lemma handled_app ns1 ns2 m :
  handled (ns1 ++ ns2) m = handled ns2 (handled ns1 m).
Proof.
  revert m. induction ns1 as [|n ns1 IH]; intros m; [reflexivity|].
  cbn [app]. rewrite !handled_cons. apply IH.
Qed.

Lemma deliver_run ns m : deliver ns m = (Ok tt, handled ns m).
Proof.
  unfold handled. pose proof (deliver_ok ns m) as H.
  destruct (deliver ns m) as [r m1]. cbn in *. by subst.
Qed.

Lemma handled_answered ns (call : Call) m :
  handled ns (answered call m) = answered call (handled ns m).
Proof.
  revert m. induction ns as [|n ns IH]; intros m; [reflexivity|].
  rewrite !handled_cons, handler_answered. cbn [snd]. apply IH.
Qed.

(** What no notification changes. *)
Lemma handled_frame ns m :
  _bardevice (self (handled ns m)) = _bardevice (self m) /\
  _bleclient (self (handled ns m)) = _bleclient (self m) /\
  _event (self (handled ns m)) = _event (self m) /\
  devices (handled ns m) = devices m /\
  clients (handled ns m) = clients m /\
  calls (handled ns m) = calls m /\
  script (handled ns m) = script m /\
  next_loc (handled ns m) = next_loc m.
Proof.
  revert m. induction ns as [|n ns IH]; intros m; [by split_and!|].
  rewrite handled_cons.
  destruct (handler_frame (fst n) (snd n) m) as (Hs & Hdv & Hcl & Hca & Hsc & Hnl & _).
  destruct (IH (snd (notification_handler (fst n) (snd n) m)))
    as (H1 & H2 & H3 & H4 & H5 & H6 & H7 & H8).
  rewrite H1, H2, H3, H4, H5, H6, H7, H8, Hs, Hdv, Hcl, Hca, Hsc, Hnl.
  by split_and!.
Qed.

(** An event that exists still does once notifications were handled. *)
Lemma handled_events ns m (e : loc) :
  is_Some (events m !! e) -> is_Some (events (handled ns m) !! e).
Proof.
  revert m. induction ns as [|n ns IH]; intros m He; [exact He|].
  rewrite handled_cons. apply IH.
  destruct (handler_events (fst n) (snd n) m) as [-> | (e0 & _ & ->)];
    [exact He|].
  rewrite lookup_insert. case_decide; [by eexists | exact He].
Qed.

Lemma arrived_nil arrivals : arrived arrivals [].
Proof. intros n Hn. by apply elem_of_nil in Hn. Qed.

Lemma arrived_app arrivals ns1 ns2 :
  arrived arrivals ns1 -> arrived arrivals ns2 -> arrived arrivals (ns1 ++ ns2).
Proof. intros H1 H2 n [?|?]%elem_of_app; auto. Qed.

Lemma arrived_nth arrivals (i : nat) : arrived arrivals (nth i arrivals []).
Proof.
  intros n Hn. destruct (lt_dec i (length arrivals)) as [Hi|Hi].
  - exists (nth i arrivals []). split; [|exact Hn].
    apply list_elem_of_In. by apply nth_In.
  - rewrite nth_overflow in Hn by lia. by apply elem_of_nil in Hn.
Qed.

Lemma arrived_none ns : arrived [] ns -> ns = [].
Proof.
  destruct ns as [|n ns]; [reflexivity|]. intros H.
  destruct (H n) as (batch & Hb & _); [by left|]. by apply elem_of_nil in Hb.
Qed.

(** One guarded subscription, with and without arrivals. *)
Lemma try_start_notify_run c (u : string) m :
  try_start_notify c u m
  = (guarded_result (head (script m)), answered (CStartNotify c u) m).
Proof.
  open_machine m.
  unfold try_start_notify, try_except, start_notify, bind, record_call,
    next_outcome, modify, answered.
  cbn. destruct script0 as [|[|e] rest]; cbn; try reflexivity.
  by destruct (is_Exception e).
Qed.

Lemma try_start_notify_during_run batch c (u : string) m :
  try_start_notify_during batch c u m
  = (guarded_result (head (script m)),
     handled batch (answered (CStartNotify c u) m)).
Proof.
  open_machine m.
  unfold try_start_notify_during, try_except, start_notify_during, bind,
    record_call, next_outcome, modify, answered.
  cbn. destruct script0 as [|[|e] rest]; cbn; rewrite deliver_run; cbn;
    try reflexivity.
  by destruct (is_Exception e).
Qed.

Lemma subscribe_each_during_cons arrivals (i : nat) c (u : string)
    (us : list string) m :
  subscribe_each_during arrivals i c (u :: us) m
  = match try_start_notify_during (nth i arrivals []) c u m with
    | (Ok _, m1) => subscribe_each_during arrivals (S i) c us m1
    | (Raise e, m1) => (Raise e, m1)
    end.
Proof. reflexivity. Qed.

(** The guarded subscriptions with arrivals, started once [pre] was
    handled, against those without. *)
Lemma subscribe_each_during_commutes arrivals c (us : list string) :
  forall (i : nat) m ns0, exists ns,
    arrived arrivals ns /\
    subscribe_each_during arrivals i c us (handled ns0 m)
    = (fst (subscribe_each c us m),
       handled (ns0 ++ ns) (snd (subscribe_each c us m))).
Proof.
  induction us as [|u us IH]; intros i m ns0.
  - exists []. rewrite app_nil_r. split; [apply arrived_nil | reflexivity].
  - rewrite subscribe_each_during_cons, subscribe_each_cons,
      try_start_notify_during_run, try_start_notify_run.
    destruct (handled_frame ns0 m) as (_ & _ & _ & _ & _ & _ & -> & _).
    rewrite handled_answered, <- handled_app, <- handled_answered.
    destruct (guarded_result (head (script m))) as [[]|e].
    + destruct (IH (S i) (answered (CStartNotify c u) m)
                  (ns0 ++ nth i arrivals [])) as (ns & Harr & ->).
      exists (nth i arrivals [] ++ ns). rewrite app_assoc.
      split; [|reflexivity].
      apply arrived_app; [apply arrived_nth | exact Harr].
    + exists (nth i arrivals []). split; [apply arrived_nth | reflexivity].
Qed.

Lemma _get_bar228_body_during_unfold arrivals c (dev : option loc) m :
  _get_bar228_body_during arrivals c dev m
  = match subscribe_each_during arrivals 0 c subscription_order (armed m) with
    | (Ok _, m1) => (Ok dev, m1)
    | (Raise e, m1) => (Raise e, m1)
    end.
Proof.
  unfold _get_bar228_body_during, subscription_order, armed.
  cbn [subscribe_each_during].
  unfold bind at 1 2. cbn [new_Event fresh bind modify ret modify_self].
  cbn beta iota.
  set (m0 := with_self _ _).
  unfold bind.
  repeat match goal with
  | |- context [try_start_notify_during ?b c ?u ?m'] =>
      destruct (try_start_notify_during b c u m') as [[[]|?] ?]; try reflexivity
  end.
Qed.

Lemma _get_bar228_body_during_commutes arrivals c (dev : option loc) :
  commutes arrivals (_get_bar228_body_during arrivals c dev)
    (_get_bar228_body c dev).
Proof.
  intros m.
  rewrite _get_bar228_body_during_unfold, _get_bar228_body_unfold.
  destruct (subscribe_each_during_commutes arrivals c subscription_order
              0 (armed m) []) as (ns & Harr & Heq).
  rewrite handled_nil in Heq. cbn [app] in Heq. rewrite Heq.
  exists ns. split; [exact Harr|].
  by destruct (subscribe_each c subscription_order (armed m)) as [[[]|e] q1].
Qed.

(** With arrivals too the handler of the decorator is never entered,
    and [_get_bar228] is the run without arrivals followed by the
    notifications that arrived. *)
Lemma _get_bar228_during_commutes arrivals c (dev : option loc) :
  commutes arrivals (_get_bar228_during arrivals c dev) (_get_bar228 c dev).
Proof.
  intros m.
  destruct (_get_bar228_body_during_commutes arrivals c dev m)
    as (ns & Harr & Heq).
  exists ns. split; [exact Harr|].
  rewrite _get_bar228_undecorated.
  unfold _get_bar228_during, disconnect_on_missing_services, try_except.
  rewrite Heq.
  destruct (_get_bar228_body_spec c dev m)
    as (k & _ & _ & _ & _ & _ & _ & _ & _ & _ & He & _).
  destruct (_get_bar228_body c dev m) as [[r|e] q1]; cbn [fst snd] in *;
    [reflexivity|].
  specialize (He e eq_refl).
  destruct (is_missing e) eqn:Hm; [|reflexivity].
  apply missing_is_Exception in Hm. congruence.
Qed.

Lemma commutes_refl {A : Type} arrivals (p : M A) : commutes arrivals p p.
Proof.
  intros m. exists []. split; [apply arrived_nil|].
  rewrite handled_nil. by destruct (p m).
Qed.

Lemma commutes_bind {A B : Type} arrivals (p : M A) (k' k : A -> M B) :
  (forall a, commutes arrivals (k' a) (k a)) ->
  commutes arrivals (bind p k') (bind p k).
Proof.
  intros H m. unfold bind. destruct (p m) as [[a|e] m1]; [apply H|].
  exists []. split; [apply arrived_nil | reflexivity].
Qed.

Lemma commutes_gets {A B : Type} arrivals (during quiet : M A)
    (f : Machine -> B) :
  (forall ns m, f (handled ns m) = f m) ->
  commutes arrivals during quiet ->
  commutes arrivals (bind during (fun _ => gets f))
    (bind quiet (fun _ => gets f)).
Proof.
  intros Hf H m. destruct (H m) as (ns & Harr & Heq).
  exists ns. split; [exact Harr|].
  unfold bind. rewrite Heq.
  destruct (quiet m) as [[a|e] q1]; cbn; [|reflexivity].
  unfold gets. by rewrite Hf.
Qed.

Lemma set_bardevice_same m (v : option loc) :
  _bardevice (self m) = v -> with_self (set_bardevice v (self m)) m = m.
Proof. open_machine m. by intros <-. Qed.

(** Assigning what [_get_bar228] returns, with arrivals and without. *)
Lemma resubscribe_commutes arrivals c :
  commutes arrivals
    (let! dev := gets (fun m => _bardevice (self m)) in
     let! r := _get_bar228_during arrivals c dev in
     modify_self (set_bardevice r))%py
    (let! dev := gets (fun m => _bardevice (self m)) in
     let! r := _get_bar228 c dev in
     modify_self (set_bardevice r))%py.
Proof.
  intros m. unfold bind, gets. cbn beta iota.
  destruct (_get_bar228_during_commutes arrivals c (_bardevice (self m)) m)
    as (ns & Harr & ->).
  exists ns. split; [exact Harr|].
  pose proof (_get_bar228_undecorated c (_bardevice (self m)) m) as Hun.
  destruct (_get_bar228_body_spec c (_bardevice (self m)) m)
    as (k & _ & _ & _ & (Hbd & _) & _ & _ & _ & _ & Hok & _).
  rewrite <- Hun in Hbd, Hok.
  destruct (_get_bar228 c (_bardevice (self m)) m) as [[r|e] q1];
    cbn [fst snd] in *; [|reflexivity].
  destruct (Hok r eq_refl) as [-> _].
  unfold modify_self, modify.
  rewrite (set_bardevice_same q1), (set_bardevice_same (handled ns q1));
    try done.
  destruct (handled_frame ns q1) as (-> & _). exact Hbd.
Qed.

Lemma existing_bleclient_during_commutes arrivals c :
  commutes arrivals (existing_bleclient_during arrivals c)
    (existing_bleclient c).
Proof.
  unfold existing_bleclient_during, existing_bleclient.
  apply commutes_bind. intros connected.
  destruct (negb connected); [|apply commutes_refl].
  apply commutes_bind. intros _. apply resubscribe_commutes.
Qed.

Lemma new_bleclient_during_commutes arrivals ble :
  commutes arrivals (new_bleclient_during arrivals ble) (new_bleclient ble).
Proof.
  unfold new_bleclient_during, new_bleclient.
  apply commutes_bind. intros c.
  apply commutes_bind. intros _.
  apply commutes_bind. intros product.
  destruct product; [apply resubscribe_commutes | apply commutes_refl].
Qed.

(** A call of [update_device] during which notifications arrive returns
    or raises as the call does during which none arrives, and leaves the
    machine that call leaves once the notifications were handled after
    it: for the session, a notification during a subscription is as
    good as one right after the call. *)
Lemma update_device_during_commutes arrivals ble :
  commutes arrivals (update_device_during arrivals ble) (update_device ble).
Proof.
  unfold update_device_during, update_device.
  apply commutes_bind. intros bd.
  apply commutes_bind. intros _.
  apply commutes_bind. intros bc.
  apply commutes_gets.
  - intros ns m. by destruct (handled_frame ns m) as (-> & _).
  - destruct bc; [apply existing_bleclient_during_commutes
                 | apply new_bleclient_during_commutes].
Qed.

(** When nothing arrives, the two are the same. *)
Lemma update_device_during_quiet ble m :
  update_device_during [] ble m = update_device ble m.
Proof.
  destruct (update_device_during_commutes [] ble m) as (ns & Harr & ->).
  apply arrived_none in Harr as ->. rewrite handled_nil.
  by destruct (update_device ble m).
Qed.

Lemma _get_bar228_during_quiet c (dev : option loc) m :
  _get_bar228_during [] c dev m = _get_bar228 c dev m.
Proof.
  destruct (_get_bar228_during_commutes [] c dev m) as (ns & Harr & ->).
  apply arrived_none in Harr as ->. rewrite handled_nil.
  by destruct (_get_bar228 c dev m).
Qed.

(** With arrivals too a later call keeps the very record: only its
    reading may be newer. *)
Lemma update_device_during_same_record arrivals ble m l :
  _bardevice (self m) = Some l ->
  _bardevice (self (snd (update_device_during arrivals ble m))) = Some l /\
  devices (snd (update_device_during arrivals ble m)) = devices m.
Proof.
  intros Hd.
  destruct (update_device_during_commutes arrivals ble m) as (ns & _ & ->).
  cbn [fst snd].
  destruct (handled_frame ns (snd (update_device ble m)))
    as (-> & _ & _ & -> & _).
  destruct (update_device_same_records ble m l Hd) as (-> & -> & _).
  by split.
Qed.

(** The steps of the system cover the calls with arrivals. *)
Lemma reachable_handled ns m : reachable m -> reachable (handled ns m).
Proof.
  revert m. induction ns as [|n ns IH]; intros m Hm; [exact Hm|].
  rewrite handled_cons. apply IH.
  eapply reachable_step; [exact Hm | apply step_notify].
Qed.

Lemma reachable_update_device_during arrivals ble m :
  reachable m -> reachable (snd (update_device_during arrivals ble m)).
Proof.
  intros Hm.
  destruct (update_device_during_commutes arrivals ble m) as (ns & _ & ->).
  apply reachable_handled.
  eapply reachable_step; [exact Hm | apply step_update].
Qed.

Lemma count_calls_handled (p : Call -> bool) ns m :
  count_calls p (handled ns m) = count_calls p m.
Proof.
  unfold count_calls.
  by destruct (handled_frame ns m) as (_ & _ & _ & _ & _ & -> & _).
Qed.

(** The subscriptions go on at least one past the answers that let the
    coroutine go on. *)
Lemma subscribe_each_reaches c (us : list string) m (n : nat) :
  forallb benign (take n (script m)) = true ->
  exists k,
    (Nat.min (S n) (length us) <= k <= length us)%nat /\
    calls (snd (subscribe_each c us m))
      = calls m ++ map (CStartNotify c) (take k us).
Proof.
  revert m n. induction us as [|u us IH]; intros m n Hb.
  - exists 0%nat. cbn. split; [lia | by rewrite app_nil_r].
  - rewrite subscribe_each_cons, try_start_notify_run.
    assert (Hnext : forallb benign
                      (take (pred n) (script (answered (CStartNotify c u) m)))
                    = true).
    { unfold answered. cbn.
      destruct (script m) as [|o rest]; cbn [tail]; [by rewrite take_nil|].
      destruct n; [reflexivity|]. cbn in Hb.
      by apply andb_prop in Hb as [_ ?]. }
    destruct (guarded_result (head (script m))) as [[]|e] eqn:Hg.
    + destruct (IH _ _ Hnext) as (k & Hk & Hc). exists (S k).
      rewrite Hc. unfold answered. cbn. rewrite <- app_assoc.
      split; [|reflexivity]. destruct n; cbn in *; lia.
    + exists 1%nat. cbn. rewrite take_0. split; [|reflexivity].
      destruct n; [lia|]. exfalso.
      destruct (script m) as [|[|e'] rest]; cbn in Hg, Hb; try discriminate.
      apply andb_prop in Hb as [Hb _]. by rewrite Hb in Hg.
Qed.

Lemma _get_bar228_reaches c (dev : option loc) m (n : nat) :
  forallb benign (take n (script m)) = true ->
  exists k,
    (Nat.min (S n) 5 <= k <= 5)%nat /\
    calls (snd (_get_bar228 c dev m))
      = calls m ++ map (CStartNotify c) (take k subscription_order).
Proof.
  intros Hb. rewrite _get_bar228_undecorated, _get_bar228_body_unfold.
  destruct (subscribe_each_reaches c subscription_order (armed m) n Hb)
    as (k & Hk & Hc).
  exists k. split; [exact Hk|].
  by destruct (subscribe_each c subscription_order (armed m)) as [[[]|e] q].
Qed.

(** C3, amended.  A subscription of the phase that is performed (every
    answer before it lets the coroutine go on) and fails with [e], a
    [BleakServiceMissing] or [BleakCharacteristicMissing], whatever
    notifications arrive during the phase: no [clear_cache] and no
    [disconnect] call is made; the failure is caught where it occurs,
    so [e] does not propagate and the next characteristic, if there is
    one, is subscribed to; [_get_bar228] raises only a failure that is
    not an [Exception]; and when no subscription fails in that way, all
    five are attempted in their order and the device is returned. *)
Theorem subscribe_failures_are_swallowed arrivals c (dev : option loc) m
    (j : nat) (e : Exn) :
  (j < 5)%nat ->
  forallb benign (take j (script m)) = true ->
  script m !! j = Some (Fails e) ->
  is_missing e = true ->
  count_calls is_clear_cache (snd (_get_bar228_during arrivals c dev m))
    = count_calls is_clear_cache m /\
  count_calls is_disconnect (snd (_get_bar228_during arrivals c dev m))
    = count_calls is_disconnect m /\
  (forall e', fst (_get_bar228_during arrivals c dev m) = Raise e' ->
     is_Exception e' = false /\ e' <> e) /\
  (exists k,
     (Nat.min (j + 2) 5 <= k <= 5)%nat /\
     calls (snd (_get_bar228_during arrivals c dev m))
       = calls m ++ map (CStartNotify c) (take k subscription_order)) /\
  (forallb benign (take 5 (script m)) = true ->
   fst (_get_bar228_during arrivals c dev m) = Ok dev /\
   calls (snd (_get_bar228_during arrivals c dev m))
     = calls m ++ map (CStartNotify c) subscription_order).
Proof.
  intros Hj Hb Hat Hm.
  pose proof (missing_is_Exception e Hm) as He.
  destruct (_get_bar228_during_commutes arrivals c dev m) as (ns & _ & ->).
  cbn [fst snd]. rewrite !count_calls_handled.
  destruct (handled_frame ns (snd (_get_bar228 c dev m)))
    as (_ & _ & _ & _ & _ & -> & _).
  pose proof (_get_bar228_calls c dev m) as Hext.
  assert (Hb' : forallb benign (take (S j) (script m)) = true).
  { rewrite (take_S_r _ _ _ Hat), forallb_app, Hb. cbn. by rewrite He. }
  destruct (_get_bar228_reaches c dev m (S j) Hb') as (k & Hk & Hc).
  rewrite _get_bar228_undecorated in *.
  destruct (_get_bar228_body_spec c dev m)
    as (k5 & _ & Hc5 & _ & _ & _ & _ & _ & _ & Hok & Hexn & Hall).
  split_and!.
  - eapply count_calls_extends; [|exact Hext]. by intros [].
  - eapply count_calls_extends; [|exact Hext]. by intros [].
  - intros e' He'. specialize (Hexn e' He'). split; [exact Hexn | congruence].
  - exists k. split; [lia | exact Hc].
  - intros Hben. specialize (Hall Hben). split; [exact Hall|].
    destruct (Hok _ Hall) as [_ Hk5]. rewrite Hk5 in Hc5. exact Hc5.
Qed.

Lemma subscribe_failures_are_swallowed_witness :
  count_calls is_clear_cache
    (snd (_get_bar228_during early_frame 2%nat (Some 0%nat)
            missing_service_session))
    = count_calls is_clear_cache missing_service_session /\
  count_calls is_disconnect
    (snd (_get_bar228_during early_frame 2%nat (Some 0%nat)
            missing_service_session))
    = count_calls is_disconnect missing_service_session /\
  (forall e',
     fst (_get_bar228_during early_frame 2%nat (Some 0%nat)
            missing_service_session) = Raise e' ->
     is_Exception e' = false /\ e' <> BleakServiceMissing) /\
  (exists k,
     (Nat.min (0 + 2) 5 <= k <= 5)%nat /\
     calls (snd (_get_bar228_during early_frame 2%nat (Some 0%nat)
                   missing_service_session))
       = calls missing_service_session
         ++ map (CStartNotify 2%nat) (take k subscription_order)) /\
  (forallb benign (take 5 (script missing_service_session)) = true ->
   fst (_get_bar228_during early_frame 2%nat (Some 0%nat)
          missing_service_session) = Ok (Some 0%nat) /\
   calls (snd (_get_bar228_during early_frame 2%nat (Some 0%nat)
                 missing_service_session))
     = calls missing_service_session
       ++ map (CStartNotify 2%nat) subscription_order).
Proof.
  apply (subscribe_failures_are_swallowed early_frame 2%nat (Some 0%nat)
           missing_service_session 0%nat BleakServiceMissing).
  - lia.
  - vm_compute. reflexivity.
  - vm_compute. reflexivity.
  - vm_compute. reflexivity.
Defined.

(** A missing service at the first subscription and a cancellation at
    the second: the first failure is swallowed, the second subscription
    is attempted, the cancellation is raised, and still no [clear_cache]
    and no [disconnect] call is made. *)
Example missing_then_cancelled_run :
  fst (_get_bar228 2%nat (Some 0%nat) missing_then_cancelled_session)
    = Raise CancelledError /\
  drop 6 (calls (snd (_get_bar228 2%nat (Some 0%nat)
                        missing_then_cancelled_session)))
    = map (CStartNotify 2%nat) (take 2 subscription_order) /\
  count_calls is_clear_cache
    (snd (_get_bar228 2%nat (Some 0%nat) missing_then_cancelled_session))
    = 0%nat /\
  count_calls is_disconnect
    (snd (_get_bar228 2%nat (Some 0%nat) missing_then_cancelled_session))
    = 0%nat.
Proof. vm_compute. repeat split. Qed.

(** C4, amended.  A first [update_device] on a session without record
    and client, for a device whose advertised name starts with
    "IDTBA228", the connection being established and no subscription
    failing outside [Exception]: whatever notifications arrive during
    the call, it creates the event, attempts the five subscriptions and
    returns the record without waiting for a telemetry frame.  In
    particular it returns when no notification has arrived: the event is
    then unset and the four fields of the reading are still [None]. *)
Theorem first_update_returns_without_frame arrivals ble (n : string) m :
  _bardevice (self m) = None ->
  _bleclient (self m) = None ->
  ble_name ble = Some n ->
  String.prefix "IDTBA228" n = true ->
  next_succeeds m = true ->
  forallb benign (take 5 (tail (script m))) = true ->
  exists l c e,
    fst (update_device_during arrivals ble m) = Ok (Some l) /\
    calls (snd (update_device_during arrivals ble m))
      = calls m ++ CEstablish (ble_address ble)
                   :: map (CStartNotify c) subscription_order /\
    _event (self (snd (update_device_during arrivals ble m))) = Some e /\
    is_Some (events (snd (update_device_during arrivals ble m)) !! e) /\
    events (snd (update_device_during [] ble m)) !! e = Some false /\
    sensors_of (snd (update_device_during [] ble m)) l = initial_sensors /\
    sensors_of (snd (update_device_during [] ble m)) l !! "last" = Some VNone.
Proof.
  intros Hd Hc Hn Hp Hs Hb.
  destruct (first_update_run ble n m Hd Hc Hn Hp Hs Hb)
    as (Hres & Hcalls & Hev & Hunset & Hread).
  exists (next_loc m), (S (S (next_loc m))), (S (S (S (next_loc m)))).
  rewrite update_device_during_quiet.
  destruct (update_device_during_commutes arrivals ble m) as (ns & _ & ->).
  cbn [fst snd].
  destruct (handled_frame ns (snd (update_device ble m)))
    as (_ & _ & -> & _ & _ & -> & _).
  split_and!; try assumption.
  - apply handled_events. exists false. exact Hunset.
  - by rewrite Hread.
Qed.

Lemma first_update_returns_without_frame_witness :
  exists l c e,
    fst (update_device_during early_frame station new_session) = Ok (Some l) /\
    calls (snd (update_device_during early_frame station new_session))
      = calls new_session ++ CEstablish (ble_address station)
                   :: map (CStartNotify c) subscription_order /\
    _event (self (snd (update_device_during early_frame station new_session)))
      = Some e /\
    is_Some (events (snd (update_device_during early_frame station new_session))
               !! e) /\
    events (snd (update_device_during [] station new_session)) !! e
      = Some false /\
    sensors_of (snd (update_device_during [] station new_session)) l
      = initial_sensors /\
    sensors_of (snd (update_device_during [] station new_session)) l !! "last"
      = Some VNone.
Proof.
  apply (first_update_returns_without_frame early_frame station "IDTBA228"
           new_session).
  - vm_compute. reflexivity.
  - vm_compute. reflexivity.
  - vm_compute. reflexivity.
  - vm_compute. reflexivity.
  - vm_compute. reflexivity.
  - vm_compute. reflexivity.
Defined.

(** The same first call when a full frame arrives during the second
    subscription: on return the event is set and the frame is decoded. *)
Example first_update_with_early_frame :
  fst (update_device_during early_frame station new_session)
    = Ok (Some 0%nat) /\
  events (snd (update_device_during early_frame station new_session)) !! 3%nat
    = Some true /\
  sensors_of (snd (update_device_during early_frame station new_session)) 0%nat
    = decoded_reading frame 1700000000.
Proof. vm_compute. repeat split. Qed.

(** X7.  On a session whose client reports disconnected, once
    [connect] succeeds and no subscription fails outside [Exception],
    [update_device] subscribes again to the five characteristics with
    that same client and replaces the event by a new one, whatever
    notifications arrive during the call; when none arrives the new
    event is unset on return.  The advertised name is not consulted on
    this path: the subscriptions are made whatever the device is
    called. *)
Theorem reconnect_resubscribes arrivals ble m l c :
  _bardevice (self m) = Some l ->
  _bleclient (self m) = Some c ->
  clients m !!! c = false ->
  next_succeeds m = true ->
  forallb benign (take 5 (tail (script m))) = true ->
  fst (update_device_during arrivals ble m) = Ok (Some l) /\
  _bleclient (self (snd (update_device_during arrivals ble m))) = Some c /\
  clients (snd (update_device_during arrivals ble m)) !! c = Some true /\
  calls (snd (update_device_during arrivals ble m))
    = calls m ++ CConnect c :: map (CStartNotify c) subscription_order /\
  _event (self (snd (update_device_during arrivals ble m)))
    = Some (next_loc m) /\
  is_Some (events (snd (update_device_during arrivals ble m)) !! next_loc m) /\
  events (snd (update_device_during [] ble m)) !! next_loc m = Some false.
Proof.
  intros Hd Hc Hconn Hs Hb.
  destruct (reconnect_run ble m l c Hd Hc Hconn Hs Hb)
    as (Hres & Hbc & Hcl & Hcalls & Hev & Hunset).
  rewrite update_device_during_quiet.
  destruct (update_device_during_commutes arrivals ble m) as (ns & _ & ->).
  cbn [fst snd].
  destruct (handled_frame ns (snd (update_device ble m)))
    as (_ & -> & -> & _ & -> & -> & _).
  split_and!; try assumption.
  apply handled_events. exists false. exact Hunset.
Qed.

Lemma reconnect_resubscribes_witness :
  fst (update_device_during early_frame nameless dropped_session)
    = Ok (Some 0%nat) /\
  _bleclient (self (snd (update_device_during early_frame nameless
                           dropped_session)))
    = Some 2%nat /\
  clients (snd (update_device_during early_frame nameless dropped_session))
    !! 2%nat = Some true /\
  calls (snd (update_device_during early_frame nameless dropped_session))
    = calls dropped_session
      ++ CConnect 2%nat :: map (CStartNotify 2%nat) subscription_order /\
  _event (self (snd (update_device_during early_frame nameless
                       dropped_session)))
    = Some (next_loc dropped_session) /\
  is_Some (events (snd (update_device_during early_frame nameless
                          dropped_session))
             !! next_loc dropped_session) /\
  events (snd (update_device_during [] nameless dropped_session))
    !! next_loc dropped_session = Some false.
Proof.
  apply (reconnect_resubscribes early_frame nameless dropped_session
           0%nat 2%nat).
  - vm_compute. reflexivity.
  - vm_compute. reflexivity.
  - vm_compute. reflexivity.
  - vm_compute. reflexivity.
  - vm_compute. reflexivity.
Defined.

End Arrivals.

(** ** The entities of sensor.py over the session's record *)

Section Entities.
Import Sensor.

Implicit Types (m : Machine) (l : loc) (co : DataUpdateCoordinator).
Implicit Types (ent : BAR228Sensor) (k : string).

(** Every description of the template sits under its own key. *)
Lemma template_key k (d : Description.t) :
  SENSORS_MAPPING_TEMPLATE !! k = Some d -> Description.key d = k.
Proof.
  unfold SENSORS_MAPPING_TEMPLATE. rewrite !lookup_insert, lookup_empty.
  repeat case_decide; intros [= <-]; by subst.
Qed.

Lemma template_dom : dom SENSORS_MAPPING_TEMPLATE = sensor_keys.
Proof. vm_compute. reflexivity. Qed.

Lemma entity_for_Some co m k (v : PyVal) ent :
  entity_for co m (k, v) = Some ent ->
  SENSORS_MAPPING_TEMPLATE !! k = Some (entity_description ent) /\
  entity_key ent = k /\
  ent = BAR228Sensor__init__ co (data co) (entity_description ent) m.
Proof.
  unfold entity_for. cbn [fst].
  destruct (SENSORS_MAPPING_TEMPLATE !! k) as [d|] eqn:Hk; [|discriminate].
  intros [= <-]. cbn. split_and!; [reflexivity | by apply template_key | reflexivity].
Qed.

Lemma entity_keys_filter co m (items : list (string * PyVal)) :
  map entity_key (omap (entity_for co m) items)
  = filter (fun k => is_Some (SENSORS_MAPPING_TEMPLATE !! k)) (map fst items).
Proof.
  induction items as [|[k v] items IH]; [reflexivity|].
  cbn [omap list_omap map fst]. rewrite filter_cons.
  destruct (entity_for co m (k, v)) as [ent|] eqn:Hent.
  - destruct (entity_for_Some co m k v ent Hent) as (Hk & Hkey & _).
    rewrite decide_True by (rewrite Hk; by eexists).
    cbn [map]. by rewrite Hkey, <- IH.
  - rewrite decide_False; [exact IH|].
    unfold entity_for in Hent. cbn [fst] in Hent.
    destruct (SENSORS_MAPPING_TEMPLATE !! k); [discriminate | by intros [? ?]].
Qed.

(** X12.  [async_setup_entry] makes one entity for each key of the
    sensors mapping that the template knows, in the order of the items,
    and passes over every other key without an error. *)
Theorem setup_skips_unknown_keys co m :
  map entity_key (async_setup_entry co m)
  = filter (fun k => is_Some (SENSORS_MAPPING_TEMPLATE !! k))
      (map fst (map_to_list (sensors_of m (data co)))).
Proof. apply entity_keys_filter. Qed.

Lemma entity_keys_NoDup co m : NoDup (map entity_key (async_setup_entry co m)).
Proof.
  unfold async_setup_entry. rewrite entity_keys_filter.
  apply NoDup_filter, NoDup_fst_map_to_list.
Qed.

Lemma elem_of_entity_keys co m k :
  k ∈ map entity_key (async_setup_entry co m)
  <-> k ∈ dom (sensors_of m (data co)) /\ k ∈ dom SENSORS_MAPPING_TEMPLATE.
Proof.
  unfold async_setup_entry. rewrite entity_keys_filter, list_elem_of_filter.
  rewrite !elem_of_dom, list_elem_of_fmap. split.
  - intros [Hk ([k' v] & -> & Hin)]. apply elem_of_map_to_list in Hin.
    split; [by eexists | exact Hk].
  - intros [[v Hv] Hk]. split; [exact Hk|].
    exists (k, v). split; [reflexivity | by apply elem_of_map_to_list].
Qed.

(** X13.  On every machine a session reaches, the setup over the
    session's record makes exactly four entities, one for each of
    temperature, humidity, pressure and last, each carrying the
    template's description of its key. *)
Theorem setup_makes_four_entities m l :
  reachable m ->
  _bardevice (self m) = Some l ->
  map entity_key (async_setup_entry {| data := l |} m)
    ≡ₚ ["temperature"; "humidity"; "pressure"; "last"] /\
  length (async_setup_entry {| data := l |} m) = 4%nat /\
  Forall (fun ent =>
            SENSORS_MAPPING_TEMPLATE !! entity_key ent
            = Some (entity_description ent))
         (async_setup_entry {| data := l |} m).
Proof.
  intros Hreach Hl.
  pose proof (reachable_reading_ok m Hreach l Hl) as Hdom.
  assert (Hperm : map entity_key (async_setup_entry {| data := l |} m)
                  ≡ₚ ["temperature"; "humidity"; "pressure"; "last"]).
  { apply NoDup_Permutation.
    - apply entity_keys_NoDup.
    - by apply (bool_decide_unpack _).
    - intros k. rewrite elem_of_entity_keys. cbn [data].
      rewrite Hdom, template_dom. unfold sensor_keys.
      rewrite !elem_of_union, !elem_of_singleton, !elem_of_cons, elem_of_nil.
      tauto. }
  split_and!.
  - exact Hperm.
  - apply Permutation_length in Hperm. by rewrite length_map in Hperm.
  - apply Forall_forall. intros ent Hent.
    apply list_elem_of_omap in Hent as ([k v] & _ & Hfor).
    destruct (entity_for_Some _ _ _ _ _ Hfor) as (Hk & Hkey & _).
    by rewrite Hkey.
Qed.

Lemma setup_makes_four_entities_witness :
  map entity_key (async_setup_entry {| data := 0%nat |} ready_session)
    ≡ₚ ["temperature"; "humidity"; "pressure"; "last"] /\
  length (async_setup_entry {| data := 0%nat |} ready_session) = 4%nat /\
  Forall (fun ent =>
            SENSORS_MAPPING_TEMPLATE !! entity_key ent
            = Some (entity_description ent))
         (async_setup_entry {| data := 0%nat |} ready_session).
Proof.
  apply (setup_makes_four_entities ready_session 0%nat).
  - eapply reachable_step; [apply reachable_boot | apply step_update].
  - vm_compute. reflexivity.
Defined.

Lemma append_inj (pre a b : string) :
  (pre ++ a)%string = (pre ++ b)%string -> a = b.
Proof.
  induction pre as [|ch pre IH]; [done|].
  change (String ch (pre ++ a) = String ch (pre ++ b) -> a = b)%string.
  intros [= H]. by apply IH.
Qed.

Lemma append_assoc (a b c : string) :
  ((a ++ b) ++ c)%string = (a ++ b ++ c)%string.
Proof.
  induction a as [|ch a IH]; [reflexivity|].
  change (String ch ((a ++ b) ++ c) = String ch (a ++ b ++ c))%string.
  by rewrite IH.
Qed.

(** What [__init__] makes of a record and a description. *)
Lemma entity_unique_id co m (items : list (string * PyVal)) :
  Forall (fun ent =>
            _attr_unique_id ent
            = (fstring (name (devices m !!! data co)) ++ " "
                 ++ identifier (devices m !!! data co) ++ "_"
                 ++ entity_key ent)%string /\
            data (coordinator ent) = data co)
         (omap (entity_for co m) items).
Proof.
  apply Forall_forall. intros ent Hent.
  apply list_elem_of_omap in Hent as ([k v] & _ & Hfor).
  destruct (entity_for_Some _ _ _ _ _ Hfor) as (_ & _ & ->).
  unfold entity_key. cbn. split; [|reflexivity].
  by rewrite !append_assoc.
Qed.

(** X14.  The entities that one setup makes have pairwise distinct
    unique ids, whatever the sensors mapping holds. *)
Theorem unique_ids_are_distinct co m :
  NoDup (map _attr_unique_id (async_setup_entry co m)).
Proof.
  set (pre := (fstring (name (devices m !!! data co)) ++ " "
                 ++ identifier (devices m !!! data co) ++ "_")%string).
  assert (Heq : map _attr_unique_id (async_setup_entry co m)
                = map (fun k => (pre ++ k)%string)
                    (map entity_key (async_setup_entry co m))).
  { rewrite map_map. apply Forall_fmap_ext_1.
    eapply Forall_impl; [apply entity_unique_id|].
    intros ent [-> _]. subst pre. cbn beta.
    by rewrite !append_assoc. }
  rewrite Heq.
  apply NoDup_fmap_2_strong; [|apply entity_keys_NoDup].
  intros a b _ _. apply append_inj.
Qed.

(** The record that a creating [update_device] leaves at the identity
    it returns. *)
Lemma created_record ble m :
  _bardevice (self m) = None ->
  devices (snd (update_device ble m)) !!! next_loc m
  = {| hw_version := ""; sw_version := ""; name := ble_name ble;
       identifier := ""; address := ble_address ble;
       sensors := S (next_loc m) |}.
Proof.
  intros Hd. destruct (update_device_spec ble m) as [(_ & Hdv & _) _].
  rewrite Hd in Hdv. rewrite Hdv. cbn. by rewrite lookup_total_insert_eq.
Qed.

(** X15.  The unique id of an entity is made of the advertised name, as
    an f-string formats it, and the key only: the identifier is never
    set and the address is not used, so two devices advertising the
    same name get the same unique ids although their addresses, kept in
    [_id], differ. *)
Theorem twins_share_unique_ids ble1 ble2 m1 m2 co1 co2 (d : Description.t) :
  _bardevice (self m1) = None ->
  _bardevice (self m2) = None ->
  data co1 = next_loc m1 ->
  data co2 = next_loc m2 ->
  ble_name ble1 = ble_name ble2 ->
  _attr_unique_id
    (BAR228Sensor__init__ co1 (data co1) d (snd (update_device ble1 m1)))
  = (fstring (ble_name ble1) ++ " _" ++ Description.key d)%string /\
  _attr_unique_id
    (BAR228Sensor__init__ co2 (data co2) d (snd (update_device ble2 m2)))
  = _attr_unique_id
      (BAR228Sensor__init__ co1 (data co1) d (snd (update_device ble1 m1))) /\
  _id (BAR228Sensor__init__ co1 (data co1) d (snd (update_device ble1 m1)))
  = ble_address ble1 /\
  _id (BAR228Sensor__init__ co2 (data co2) d (snd (update_device ble2 m2)))
  = ble_address ble2.
Proof.
  intros H1 H2 -> -> Hname. unfold BAR228Sensor__init__.
  cbn [_attr_unique_id _id]. cbn zeta.
  rewrite !created_record by assumption.
  cbn [name identifier address].
  rewrite !append_assoc, Hname. by split_and!.
Qed.

Lemma twins_share_unique_ids_witness :
  _attr_unique_id
    (BAR228Sensor__init__ {| data := 0%nat |} 0%nat
       {| Description.key := "temperature";
          Description.device_class := TEMPERATURE;
          Description.native_unit_of_measurement := Some CELSIUS;
          Description.name := "Temperature" |}
       (snd (update_device station new_session)))
  = (fstring (ble_name station) ++ " _" ++ "temperature")%string /\
  _attr_unique_id
    (BAR228Sensor__init__ {| data := 0%nat |} 0%nat
       {| Description.key := "temperature";
          Description.device_class := TEMPERATURE;
          Description.native_unit_of_measurement := Some CELSIUS;
          Description.name := "Temperature" |}
       (snd (update_device twin_station new_session)))
  = _attr_unique_id
      (BAR228Sensor__init__ {| data := 0%nat |} 0%nat
         {| Description.key := "temperature";
            Description.device_class := TEMPERATURE;
            Description.native_unit_of_measurement := Some CELSIUS;
            Description.name := "Temperature" |}
         (snd (update_device station new_session))) /\
  _id (BAR228Sensor__init__ {| data := 0%nat |} 0%nat
         {| Description.key := "temperature";
            Description.device_class := TEMPERATURE;
            Description.native_unit_of_measurement := Some CELSIUS;
            Description.name := "Temperature" |}
         (snd (update_device station new_session)))
  = ble_address station /\
  _id (BAR228Sensor__init__ {| data := 0%nat |} 0%nat
         {| Description.key := "temperature";
            Description.device_class := TEMPERATURE;
            Description.native_unit_of_measurement := Some CELSIUS;
            Description.name := "Temperature" |}
         (snd (update_device twin_station new_session)))
  = ble_address twin_station.
Proof.
  apply (twins_share_unique_ids station twin_station new_session new_session
           {| data := 0%nat |} {| data := 0%nat |}).
  - vm_compute. reflexivity.
  - vm_compute. reflexivity.
  - vm_compute. reflexivity.
  - vm_compute. reflexivity.
  - vm_compute. reflexivity.
Defined.

(** X16.  Nothing ever fills the versions or the identifier of the
    record: on every machine a session reaches, the device info of each
    entity has empty hardware and software versions, and its name is
    the name of the record, as an f-string formats it, followed by one
    space. *)
Theorem device_info_has_no_versions m l :
  reachable m ->
  _bardevice (self m) = Some l ->
  Forall (fun ent =>
            Info.hw_version (_attr_device_info ent) = "" /\
            Info.sw_version (_attr_device_info ent) = "" /\
            Info.name (_attr_device_info ent)
            = (fstring (name (devices m !!! l)) ++ " ")%string)
         (async_setup_entry {| data := l |} m).
Proof.
  intros Hreach Hl.
  destruct (reachable_versions_blank m Hreach l Hl) as (Hhw & Hsw & Hid).
  apply Forall_forall. intros ent Hent.
  apply list_elem_of_omap in Hent as ([k v] & _ & Hfor).
  destruct (entity_for_Some _ _ _ _ _ Hfor) as (_ & _ & ->).
  cbn. by rewrite Hhw, Hsw, Hid.
Qed.

Lemma device_info_has_no_versions_witness :
  Forall (fun ent =>
            Info.hw_version (_attr_device_info ent) = "" /\
            Info.sw_version (_attr_device_info ent) = "" /\
            Info.name (_attr_device_info ent)
            = (fstring (name (devices ready_session !!! 0%nat)) ++ " ")%string)
         (async_setup_entry {| data := 0%nat |} ready_session).
Proof.
  apply (device_info_has_no_versions ready_session 0%nat).
  - eapply reachable_step; [apply reachable_boot | apply step_update].
  - vm_compute. reflexivity.
Defined.

Lemma decoded_reading_lookup data (t : Z) k :
  k ∈ sensor_keys ->
  exists v, decoded_reading data t !! k = Some v /\ v <> VNone.
Proof.
  unfold sensor_keys. rewrite !elem_of_union, !elem_of_singleton.
  unfold decoded_reading, spec_scaled.
  intros [[[->| ->]| ->]| ->]; eexists; (split; [by simplify_map_eq | done]).
Qed.

(** X17.  The entities read the record itself: after an [update_device]
    that returned, every entity set up from the record it returned shows
    the values of the next full frame, none of them [None], with no
    further [update_device] call. *)
Theorem entities_show_latest_frame ble m l sender data :
  reachable m ->
  fst (update_device ble m) = Ok (Some l) ->
  0x0013 <= handle sender ->
  (10 <= length data)%nat ->
  Forall (fun ent =>
            Some (native_value ent
                    (snd (notification_handler sender data
                            (snd (update_device ble m)))))
            = decoded_reading data (clock (snd (update_device ble m)))
                !! entity_key ent /\
            native_value ent
              (snd (notification_handler sender data
                      (snd (update_device ble m)))) <> VNone)
         (async_setup_entry {| data := l |} (snd (update_device ble m))).
Proof.
  intros Hreach Hret Hh Hlen.
  destruct (update_device_spec ble m) as [_ Hres].
  destruct (Hres _ Hret) as [Hl _]. symmetry in Hl.
  pose proof (reading_ok_update ble m (reachable_reading_ok m Hreach) l Hl)
    as Hdom.
  set (m1 := snd (update_device ble m)) in *.
  destruct (handler_full_frame sender data m1 l Hh Hlen Hl) as [_ Hread].
  rewrite four_stores_fill in Hread by (by rewrite Hdom).
  fold (decoded_reading data (clock m1)) in Hread.
  apply Forall_forall. intros ent Hent.
  apply list_elem_of_omap in Hent as ([k v] & _ & Hfor).
  destruct (entity_for_Some _ _ _ _ _ Hfor) as (Hk & Hkey & ->).
  assert (Hin : k ∈ sensor_keys).
  { rewrite <- template_dom. apply elem_of_dom. by eexists. }
  unfold native_value, entity_key in *.
  cbn [coordinator Sensor.data BAR228Sensor__init__ entity_description] in *.
  rewrite Hread, Hkey.
  destruct (decoded_reading_lookup data (clock m1) k Hin) as (w & -> & Hw).
  by split.
Qed.

Lemma entities_show_latest_frame_witness :
  Forall (fun ent =>
            Some (native_value ent
                    (snd (notification_handler telemetry frame
                            (snd (update_device station new_session)))))
            = decoded_reading frame
                (clock (snd (update_device station new_session)))
                !! entity_key ent /\
            native_value ent
              (snd (notification_handler telemetry frame
                      (snd (update_device station new_session)))) <> VNone)
         (async_setup_entry {| data := 0%nat |}
            (snd (update_device station new_session))).
Proof.
  apply (entities_show_latest_frame station new_session 0%nat telemetry frame).
  - apply reachable_boot.
  - vm_compute. reflexivity.
  - vm_compute. discriminate.
  - vm_compute. lia.
Defined.

(** X18.  Until a frame arrives every entity reports [None]: after the
    [update_device] that creates the record, whether it returned or
    raised, each entity set up from that record has no value. *)
Theorem entities_start_without_value ble m :
  _bardevice (self m) = None ->
  Forall (fun ent => native_value ent (snd (update_device ble m)) = VNone)
         (async_setup_entry {| data := next_loc m |} (snd (update_device ble m))).
Proof.
  intros Hd.
  destruct (update_device_creates_record ble m Hd) as (_ & _ & _ & Hread).
  apply Forall_forall. intros ent Hent.
  apply list_elem_of_omap in Hent as ([k v] & _ & Hfor).
  destruct (entity_for_Some _ _ _ _ _ Hfor) as (_ & _ & ->).
  unfold native_value. cbn [coordinator Sensor.data BAR228Sensor__init__].
  rewrite Hread. unfold initial_sensors.
  rewrite !lookup_insert, lookup_empty. by repeat case_decide.
Qed.

Lemma entities_start_without_value_witness :
  Forall (fun ent =>
            native_value ent (snd (update_device station refused_session))
            = VNone)
         (async_setup_entry {| data := next_loc refused_session |}
            (snd (update_device station refused_session))).
Proof.
  apply (entities_start_without_value station refused_session).
  vm_compute. reflexivity.
Defined.

End Entities.
